(** * Action executor ([utils/execute_action.py])

    A shallow embedding of the Android action executor: the validator
    [validate_action], the logger [log_action], the dispatcher
    [execute_action] and the command-line entry point [main], followed by
    the properties the specification states about them.

    Python values are the values [json.loads] can produce; a Python string
    is held as its UTF-8 bytes.  The code talks to four collaborators that
    are not part of the module: the device bridge [adb_helper], the clock,
    the file system and the interpreter's own services ([json.loads], the
    [repr] of floats and containers, standard input).  They are gathered in
    the record [env]; the calls into the bridge and the file system, [repr]
    and [json.loads] may raise and have an [outcome] there, while the clock
    and the reading of standard input are taken to return.  Effects are
    threaded through a small state and exception monad whose state survives
    a raise, as Python's does. *)

From Stdlib Require Import ZArith String List Ascii Bool Lia.
From Stdlib Require Import DecimalString SpecFloat.
Import ListNotations.

Local Open Scope string_scope.
Local Open Scope Z_scope.

#[local] Set Warnings "-register-all".

(** ** Values *)

(** The values of the JSON fragment of Python.  A float is an IEEE 754
    double, including the [NaN] and [Infinity] literals [json.loads]
    accepts; a dict keeps its entries in insertion order. *)
Inductive pyval : Type :=
| PNone
| PBool (b : bool)
| PInt (z : Z)
| PFloat (f : spec_float)
| PStr (s : string)
| PList (items : list pyval)
| PDict (entries : list (string * pyval)).

(** A result dictionary: string keys and string values, in insertion
    order, which is the order [json.dumps] prints them in. *)
Definition result := list (string * string).

(** [k in d] and [d[k]] on a dict with string keys. *)
Fixpoint dict_get {A : Type} (d : list (string * A)) (k : string) : option A :=
  match d with
  | [] => None
  | (k', v) :: rest => if String.eqb k' k then Some v else dict_get rest k
  end.

(** [v == s] for a string literal [s]: only a string equals a string. *)
Definition py_eq_str (v : pyval) (s : string) : bool :=
  match v with
  | PStr t => String.eqb t s
  | _ => false
  end.

(** [v in [s1, ..., sn]] for a list of string literals. *)
Definition py_in (v : pyval) (l : list string) : bool :=
  existsb (py_eq_str v) l.

(** [isinstance(c, (int, float))]; [bool] is a subclass of [int]. *)
Definition is_int_or_float (c : pyval) : bool :=
  match c with
  | PBool _ | PInt _ | PFloat _ => true
  | _ => false
  end.

(** ** Exceptions and outcomes *)

(** An exception of class [Exception], with the text [str(e)] gives.
    Interrupts and interpreter exits, which [except Exception] does not
    catch, are outside the model. *)
Record exc : Type := mk_exc { exc_class : string; exc_text : string }.

Inductive outcome (A : Type) : Type :=
| Ret (a : A)
| Raise (e : exc).
Arguments Ret {A} a.
Arguments Raise {A} e.

(** ** Strings *)

(** The first integer whose decimal numeral has more than 4300 digits,
    the default of [sys.int_info.default_max_str_digits]: ten to the power
    4300 (lemma [int_str_bound_spec]). *)
Definition int_str_bound : Z := Eval vm_compute in (10 ^ 4300).

Definition int_str_limit_exceeded : exc :=
  mk_exc "ValueError"
    ("Exceeds the limit (4300 digits) for integer string conversion; "
     ++ "use sys.set_int_max_str_digits() to increase the limit").

(** [str(n)] for an integer, which is also its rendering in an f-string:
    the decimal numeral, or a [ValueError] when it would have more than
    4300 digits. *)
Definition str_int (n : Z) : outcome string :=
  if Z.abs n <? int_str_bound then Ret (NilZero.string_of_int (Z.to_int n))
  else Raise int_str_limit_exceeded.

(** [s.replace(c, new)] for a one-character pattern [c].  A space byte
    occurs in UTF-8 text only as a space. *)
Fixpoint str_replace (s : string) (c : ascii) (new : string) : string :=
  match s with
  | EmptyString => EmptyString
  | String a rest =>
      if Ascii.eqb a c then new ++ str_replace rest c new
      else String a (str_replace rest c new)
  end.

Definition space : ascii := ascii_of_nat 32.

(** The characters [str.strip()] removes are those [str.isspace] accepts.
    In UTF-8 they take one, two or three bytes:
    - one byte: U+0009 to U+000D, U+001C to U+001F, U+0020;
    - two bytes: U+0085 (C2 85) and U+00A0 (C2 A0);
    - three bytes: U+1680 (E1 9A 80), U+2000 to U+200A (E2 80 80 to
      E2 80 8A), U+2028, U+2029 and U+202F (E2 80 A8, A9, AF), U+205F
      (E2 81 9F) and U+3000 (E3 80 80). *)
Definition code (a : ascii) : nat := nat_of_ascii a.

Definition is_whitespace (a : ascii) : bool :=
  let n := code a in
  ((9 <=? n) && (n <=? 13) || (28 <=? n) && (n <=? 32))%nat.

Definition is_whitespace2 (a b : ascii) : bool :=
  ((code a =? 194) && ((code b =? 133) || (code b =? 160)))%nat.

Definition is_whitespace3 (a b c : ascii) : bool :=
  ((code a =? 225) && (code b =? 154) && (code c =? 128)
   || (code a =? 226) && (code b =? 128)
      && ((128 <=? code c) && (code c <=? 138)
          || (code c =? 168) || (code c =? 169) || (code c =? 175))
   || (code a =? 226) && (code b =? 129) && (code c =? 159)
   || (code a =? 227) && (code b =? 128) && (code c =? 128))%nat.

(** Dropping the whitespace characters a list of bytes starts with; [w2]
    and [w3] recognise the two-byte and three-byte characters in the order
    the bytes are met. *)
Fixpoint strip_with (w2 : ascii -> ascii -> bool)
    (w3 : ascii -> ascii -> ascii -> bool) (l : list ascii) : list ascii :=
  match l with
  | [] => []
  | a :: r1 =>
      if is_whitespace a then strip_with w2 w3 r1
      else
        match r1 with
        | [] => l
        | b :: r2 =>
            if w2 a b then strip_with w2 w3 r2
            else
              match r2 with
              | [] => l
              | c :: r3 => if w3 a b c then strip_with w2 w3 r3 else l
              end
        end
  end.

(** From the front of the text ... *)
Definition lstrip : list ascii -> list ascii :=
  strip_with is_whitespace2 is_whitespace3.

(** ... and from the front of the reversed text, where the bytes of a
    character are met last byte first. *)
Definition lstrip_rev : list ascii -> list ascii :=
  strip_with (fun c b => is_whitespace2 b c) (fun c b a => is_whitespace3 a b c).

(** [s.strip()]. *)
Definition str_strip (s : string) : string :=
  string_of_list_ascii
    (rev (lstrip_rev (rev (lstrip (list_ascii_of_string s))))).

Definition str_is_empty (s : string) : bool :=
  match s with EmptyString => true | _ => false end.

(** [int(v)] on the values [validate_action] lets through as coordinates:
    a float is truncated towards zero, [NaN] and the infinities raise.
    [int] of a string parses a literal; no string reaches this call, and
    the case is given only the error of a string that is no literal. *)
Definition py_int (v : pyval) : outcome Z :=
  match v with
  | PInt z => Ret z
  | PBool b => Ret (if b then 1 else 0)
  | PFloat (S754_zero _) => Ret 0
  | PFloat (S754_finite sign m e) =>
      let mag := Z.shiftl (Z.pos m) e in
      Ret (if sign then - mag else mag)
  | PFloat S754_nan =>
      Raise (mk_exc "ValueError" "cannot convert float NaN to integer")
  | PFloat (S754_infinity _) =>
      Raise (mk_exc "OverflowError" "cannot convert float infinity to integer")
  | PStr _ =>
      Raise (mk_exc "ValueError" "invalid literal for int() with base 10")
  | PNone | PList _ | PDict _ =>
      Raise (mk_exc "TypeError"
        "int() argument must be a string, a bytes-like object or a real number")
  end.

(** ** The environment *)

(** The device bridge, module [adb_helper]: a connectivity check and a
    command runner returning [(stdout, stderr, code)].  Both are Python
    calls, so either may raise instead of returning. *)
Record adb_helper_t : Type := {
  check_device_connected : outcome bool;
  run_adb : list string -> outcome (string * string * Z)
}.

Record env : Type := {
  adb_helper : adb_helper_t;
  (** [datetime.now().strftime("%Y-%m-%d %H:%M:%S")] *)
  clock_now : string;
  (** [os.makedirs("logs", exist_ok=True)] *)
  os_makedirs : outcome unit;
  (** opening the log file for append and writing one entry *)
  file_append : string -> outcome unit;
  (** [repr(v)], used for the values whose [str] is their [repr]; the
      [repr] of a list or dict raises when that of an element does *)
  format_value : pyval -> outcome string;
  (** [json.loads]: the parsed value, or the text of the
      [JSONDecodeError]; it raises otherwise (a [ValueError] on an integer
      literal of more than 4300 digits, a [RecursionError]) *)
  json_loads : string -> outcome (pyval + string);
  (** [sys.stdin.read()], on an input that decodes *)
  stdin_read : string
}.

(** What the process does that can be observed from outside, in order. *)
Inductive event : Type :=
| EvCheckConnected
| EvRunAdb (args : list string)
| EvSleep (seconds : Z)
| EvLog (action_type details status : string)
| EvReadStdin
| EvJsonLoads (s : string)
| EvPrint (value : option result) (indent : option Z).

Record state : Type := mk_state {
  trace : list event;
  (** the entries appended to [logs/execution.log] *)
  log_file : list string
}.

(** ** The monad *)

Definition M (A : Type) : Type := state -> outcome A * state.

Definition ret {A : Type} (a : A) : M A := fun st => (Ret a, st).

Definition bind {A B : Type} (c : M A) (k : A -> M B) : M B :=
  fun st =>
    match c st with
    | (Ret a, st') => k a st'
    | (Raise e, st') => (Raise e, st')
    end.

(** [try: body / except Exception as e: handler e]. *)
Definition try_except {A : Type} (body : M A) (handler : exc -> M A) : M A :=
  fun st =>
    match body st with
    | (Ret a, st') => (Ret a, st')
    | (Raise e, st') => handler e st'
    end.

Definition lift {A : Type} (o : outcome A) : M A := fun st => (o, st).

Definition emit (ev : event) : M unit :=
  fun st => (Ret tt, mk_state (trace st ++ [ev]) (log_file st)).

Declare Scope py_scope.
Delimit Scope py_scope with py.
Notation "x <- c ;; k" := (bind c (fun x => k))
  (at level 61, c at next level, right associativity) : py_scope.
Notation "' pat <- c ;; k" :=
  (bind c (fun x => match x with pat => k end))
  (at level 61, pat pattern, c at next level, right associativity) : py_scope.
Notation "c ;; k" := (bind c (fun _ => k))
  (at level 61, right associativity) : py_scope.
Local Open Scope py_scope.

(** ** The module *)

Definition LOG_FILE : string := "logs/execution.log".

Definition newline : string := String (ascii_of_nat 10) EmptyString.

Section Executor.

Variable E : env.

(** The calls into the environment, each leaving its event. *)
Definition call_check_device_connected : M bool :=
  emit EvCheckConnected ;; lift (check_device_connected (adb_helper E)).

Definition call_run_adb (args : list string) : M (string * string * Z) :=
  emit (EvRunAdb args) ;; lift (run_adb (adb_helper E) args).

Definition time_sleep (seconds : Z) : M unit := emit (EvSleep seconds).

(** The body of the [try] in [log_action]: make the directory, then
    append the entry; the file changes only if neither step raises. *)
Definition write_log_entry (log_entry : string) : M unit :=
  lift (os_makedirs E) ;;
  lift (file_append E log_entry) ;;
  (fun st => (Ret tt, mk_state (trace st) (log_file st ++ [log_entry]))).

Definition log_action (action_type details status : string) : M unit :=
  emit (EvLog action_type details status) ;;
  let timestamp := clock_now E in
  let log_entry :=
    "[" ++ timestamp ++ "] ACTION: " ++ action_type ++ "(" ++ details
        ++ ") -> " ++ status ++ newline in
  try_except (write_log_entry log_entry) (fun _ => ret tt).

(** The rendering of [{v}] inside an f-string, that is [str(v)]: a string
    is itself, an integer is its decimal numeral, which may raise; the
    [repr] of floats and containers is the interpreter's. *)
Definition fstr (v : pyval) : outcome string :=
  match v with
  | PStr s => Ret s
  | PInt z => str_int z
  | PBool true => Ret "True"
  | PBool false => Ret "False"
  | PNone => Ret "None"
  | PFloat _ | PList _ | PDict _ => format_value E v
  end.

Definition valid_actions : list string :=
  ["tap"; "type"; "home"; "back"; "wait"; "done"].

(** The tuple [validate_action] returns; the f-string of the message for
    an unknown action type renders the value, and raises when that
    does. *)
Definition validate_action (action : pyval) : outcome (bool * string) :=
  match action with
  | PDict d =>
      match dict_get d "action" with
      | None => Ret (false, "Missing 'action' field")
      | Some action_type =>
          if negb (py_in action_type valid_actions) then
            match fstr action_type with
            | Ret text =>
                Ret (false, "Invalid action type '" ++ text
                            ++ "'. Must be one of: "
                            ++ "['tap', 'type', 'home', 'back', 'wait', 'done']")
            | Raise e => Raise e
            end
          else if py_eq_str action_type "tap" then
            match dict_get d "coordinates" with
            | None => Ret (false, "tap action requires 'coordinates' field")
            | Some coords =>
                match coords with
                | PList items =>
                    if negb (Nat.eqb (length items) 2) then
                      Ret (false, "coordinates must be [x, y] array")
                    else if negb (forallb is_int_or_float items) then
                      Ret (false, "coordinates must be numeric")
                    else Ret (true, EmptyString)
                | _ => Ret (false, "coordinates must be [x, y] array")
                end
            end
          else if py_eq_str action_type "type" then
            match dict_get d "text" with
            | None => Ret (false, "type action requires 'text' field")
            | Some (PStr _) => Ret (true, EmptyString)
            | Some _ => Ret (false, "text must be a string")
            end
          else Ret (true, EmptyString)
      end
  | _ => Ret (false, "Action must be a JSON object")
  end.

(** [action[k]]: a [KeyError] on a missing key, a [TypeError] on a value
    that is no dict. *)
Definition getitem (action : pyval) (k : string) : outcome pyval :=
  match action with
  | PDict d =>
      match dict_get d k with
      | Some v => Ret v
      | None => Raise (mk_exc "KeyError" ("'" ++ k ++ "'"))
      end
  | _ => Raise (mk_exc "TypeError" "indices must be integers")
  end.

(** [x, y = v]. *)
Definition unpack2 (v : pyval) : outcome (pyval * pyval) :=
  match v with
  | PList [x; y] => Ret (x, y)
  | _ => Raise (mk_exc "ValueError" "cannot unpack")
  end.

(** [text.replace(" ", "%s")]. *)
Definition encode_text (text : pyval) : outcome string :=
  match text with
  | PStr s => Ret (str_replace s space "%s")
  | _ => Raise (mk_exc "AttributeError" "object has no attribute 'replace'")
  end.

Definition error_result (message : string) : result :=
  [("status", "error"); ("message", message)].

Definition success_result (action_type message : string) : result :=
  [("status", "success"); ("action", action_type); ("message", message)].

(** The branches of a key-event action ([home], [back]). *)
Definition keyevent (name keycode failed pressed : string) : M (option result) :=
  '(_, stderr, code) <- call_run_adb ["shell"; "input"; "keyevent"; keycode] ;;
  if negb (code =? 0) then
    log_action name EmptyString ("ERROR: " ++ stderr) ;;
    ret (Some (error_result (failed ++ stderr)))
  else
    log_action name EmptyString "SUCCESS" ;;
    ret (Some (success_result name pressed)).

(** The body of the [try] block of [execute_action].  The numerals of a
    tap are rendered once, [sx] and [sy], where the code renders the same
    integers again for the log and the message; the text of a type action
    is rendered where [log_action] and the message format it. *)
Definition dispatch (action action_type : pyval) : M (option result) :=
  if py_eq_str action_type "tap" then
    coords <- lift (getitem action "coordinates") ;;
    '(x, y) <- lift (unpack2 coords) ;;
    x <- lift (py_int x) ;;
    y <- lift (py_int y) ;;
    sx <- lift (str_int x) ;;
    sy <- lift (str_int y) ;;
    '(_, stderr, code) <- call_run_adb ["shell"; "input"; "tap"; sx; sy] ;;
    if negb (code =? 0) then
      log_action "tap" (sx ++ "," ++ sy) ("ERROR: " ++ stderr) ;;
      ret (Some (error_result ("Tap failed: " ++ stderr)))
    else
      log_action "tap" (sx ++ "," ++ sy) "SUCCESS" ;;
      ret (Some (success_result "tap"
             ("Tapped at (" ++ sx ++ ", " ++ sy ++ ")")))
  else if py_eq_str action_type "type" then
    text <- lift (getitem action "text") ;;
    encoded_text <- lift (encode_text text) ;;
    '(_, stderr, code) <-
      call_run_adb ["shell"; "input"; "text"; encoded_text] ;;
    if negb (code =? 0) then
      details <- lift (fstr text) ;;
      log_action "type" details ("ERROR: " ++ stderr) ;;
      ret (Some (error_result ("Type failed: " ++ stderr)))
    else
      details <- lift (fstr text) ;;
      log_action "type" details "SUCCESS" ;;
      typed <- lift (fstr text) ;;
      ret (Some (success_result "type" ("Typed: " ++ typed)))
  else if py_eq_str action_type "home" then
    keyevent "home" "KEYCODE_HOME" "Home failed: " "Pressed Home button"
  else if py_eq_str action_type "back" then
    keyevent "back" "KEYCODE_BACK" "Back failed: " "Pressed Back button"
  else if py_eq_str action_type "wait" then
    time_sleep 2 ;;
    log_action "wait" "2s" "SUCCESS" ;;
    ret (Some (success_result "wait" "Waited 2 seconds"))
  else if py_eq_str action_type "done" then
    log_action "done" EmptyString "SUCCESS" ;;
    ret (Some (success_result "done" "Goal achieved - task complete"))
  else ret None.

(** The [except Exception as e] handler of [execute_action]. *)
Definition dispatch_failed (action_type : pyval) (e : exc) : M (option result) :=
  name <- lift (fstr action_type) ;;
  log_action name EmptyString ("ERROR: " ++ exc_text e) ;;
  ret (Some (error_result ("Execution error: " ++ exc_text e))).

Definition execute_action (action : pyval) : M (option result) :=
  '(is_valid, error_msg) <- lift (validate_action action) ;;
  if negb is_valid then ret (Some (error_result error_msg))
  else
    action_type <- lift (getitem action "action") ;;
    let run := try_except (dispatch action action_type)
                          (dispatch_failed action_type) in
    if negb (py_in action_type ["done"; "wait"]) then
      connected <- call_check_device_connected ;;
      if negb connected then
        ret (Some (error_result "No Android device connected"))
      else run
    else run.

(** ** The entry point *)

Definition read_stdin : M string := emit EvReadStdin ;; ret (stdin_read E).

Definition call_json_loads (s : string) : M (pyval + string) :=
  emit (EvJsonLoads s) ;; lift (json_loads E s).

(** [print(json.dumps(value, indent=indent))]; [None] prints as [null]. *)
Definition print_json (value : option result) (indent : option Z) : M unit :=
  emit (EvPrint value indent).

(** [result[k]] on what [execute_action] returned. *)
Definition result_getitem (r : option result) (k : string) : outcome string :=
  match r with
  | Some d =>
      match dict_get d k with
      | Some v => Ret v
      | None => Raise (mk_exc "KeyError" ("'" ++ k ++ "'"))
      end
  | None => Raise (mk_exc "TypeError" "'NoneType' object is not subscriptable")
  end.

(** [result.get(k)]. *)
Definition result_get (r : option result) (k : string) : outcome (option string) :=
  match r with
  | Some d => Ret (dict_get d k)
  | None => Raise (mk_exc "AttributeError" "'NoneType' object has no attribute 'get'")
  end.

Definition opt_eq_str (o : option string) (s : string) : bool :=
  match o with Some t => String.eqb t s | None => false end.

(** [main], from the parsed command line on: [args_json] is [args.json],
    [None] when the flag is absent.  The value returned is the argument of
    [sys.exit]; an exception other than [JSONDecodeError] from [json.loads]
    and any exception from [execute_action] leave [main]. *)
Definition main (args_json : option string) : M Z :=
  action_json <-
    match args_json with
    | Some s =>
        if negb (str_is_empty s) then ret s
        else (text <- read_stdin ;; ret (str_strip text))
    | None => text <- read_stdin ;; ret (str_strip text)
    end ;;
  if str_is_empty action_json then
    print_json (Some (error_result
      "No action provided. Use --json flag or pipe JSON via stdin")) None ;;
    ret 1
  else
    parsed <- call_json_loads action_json ;;
    match parsed with
    | inr msg =>
        print_json (Some (error_result ("Invalid JSON: " ++ msg))) None ;;
        ret 1
    | inl action =>
        result <- execute_action action ;;
        print_json result (Some 2) ;;
        status <- lift (result_getitem result "status") ;;
        if String.eqb status "error" then ret 3
        else
          done <- lift (result_get result "action") ;;
          if opt_eq_str done "done" then ret 0 else ret 0
    end.

End Executor.

(** The exit status of the process: the argument of [sys.exit], or 1 when
    an exception reaches the top level. *)
Definition exit_status (o : outcome Z) : Z :=
  match o with
  | Ret code => code
  | Raise _ => 1
  end.

(** * Vocabulary of the properties

    What a run leaves behind, the notions the specification words its
    sentences with, and the sample environments the statements are
    evaluated in. *)

(** ** Observing a run *)

(** The state after one more event. *)
Definition push (st : state) (ev : event) : state :=
  mk_state (trace st ++ [ev]) (log_file st).

(** The line [log_action] formats. *)
Definition log_line (E : env) (action_type details status : string) : string :=
  "[" ++ clock_now E ++ "] ACTION: " ++ action_type ++ "(" ++ details
      ++ ") -> " ++ status ++ newline.

(** What [log_action] leaves in the log file: the entry when the directory
    and the file could be written, nothing otherwise. *)
Definition logged (E : env) (log_entry : string) : list string :=
  match os_makedirs E, file_append E log_entry with
  | Ret _, Ret _ => [log_entry]
  | _, _ => []
  end.

Definition is_log (ev : event) : bool :=
  match ev with EvLog _ _ _ => true | _ => false end.

(** The number of calls of [log_action] in a stretch of the trace. *)
Definition log_attempts (evs : list event) : nat := length (filter is_log evs).

(** The events a dispatch can leave: a command, the pause, a log call. *)
Definition is_dispatch_event (ev : event) : bool :=
  match ev with EvRunAdb _ | EvSleep _ | EvLog _ _ _ => true | _ => false end.


(** The state in which the [try] block is entered: after the connectivity
    check for a device action, unchanged for [done] and [wait]. *)
Definition after_gate (t : pyval) (st : state) : state :=
  if py_in t ["done"; "wait"] then st else push st EvCheckConnected.

(** The environment [E] with another file system under the log. *)
Definition with_fs (E : env) (mk : outcome unit) (ap : string -> outcome unit) : env :=
  {| adb_helper := adb_helper E;
     clock_now := clock_now E;
     os_makedirs := mk;
     file_append := ap;
     format_value := format_value E;
     json_loads := json_loads E;
     stdin_read := stdin_read E |}.

(** The environment [E] with another text on standard input. *)
Definition with_stdin (E : env) (text : string) : env :=
  {| adb_helper := adb_helper E;
     clock_now := clock_now E;
     os_makedirs := os_makedirs E;
     file_append := file_append E;
     format_value := format_value E;
     json_loads := json_loads E;
     stdin_read := text |}.

(** ** The words of the specification *)

(** A well-formed action: the kind is one of the six, a tap carries a
    two-element list of numbers, a type action carries a string. *)
Inductive well_formed (d : list (string * pyval)) : string -> Prop :=
| WfTap x y :
    dict_get d "coordinates" = Some (PList [x; y]) ->
    is_int_or_float x = true -> is_int_or_float y = true ->
    well_formed d "tap"
| WfType s :
    dict_get d "text" = Some (PStr s) -> well_formed d "type"
| WfHome : well_formed d "home"
| WfBack : well_formed d "back"
| WfWait : well_formed d "wait"
| WfDone : well_formed d "done".

(** The verdict of the validator: [is_valid], when it returns. *)
Definition verdict (o : outcome (bool * string)) : bool :=
  match o with
  | Ret (is_valid, _) => is_valid
  | Raise _ => false
  end.

Definition validation_passed (E : env) (action : pyval) : Prop :=
  verdict (validate_action E action) = true.


(** An action that needs the device: its type is not [done] or [wait]. *)
Definition device_action (action : pyval) : bool :=
  match getitem action "action" with
  | Ret t => negb (py_in t ["done"; "wait"])
  | Raise _ => false
  end.

Definition connectivity_passed (E : env) : Prop :=
  check_device_connected (adb_helper E) = Ret true.

(** The execution path reaches action dispatch: validation passed and,
    for a device action, the connectivity check passed. *)
Definition reaches_dispatch (E : env) (action : pyval) : Prop :=
  validation_passed E action /\
  (device_action action = true -> connectivity_passed E).



Definition no_device : result := error_result "No Android device connected".

Definition no_action : result :=
  error_result "No action provided. Use --json flag or pipe JSON via stdin".

(** The flag counts as given when it holds a non-empty string. *)
Definition flag_given (args_json : option string) : bool :=
  match args_json with
  | Some s => negb (str_is_empty s)
  | None => false
  end.

(** The action string [main] goes on with. *)
Definition action_input (E : env) (args_json : option string) : string :=
  match args_json with
  | Some s => if negb (str_is_empty s) then s else str_strip (stdin_read E)
  | None => str_strip (stdin_read E)
  end.

(** The events of getting the action string, and the state after them. *)
Definition input_events (args_json : option string) : list event :=
  if flag_given args_json then [] else [EvReadStdin].

Definition after_input (args_json : option string) (st : state) : state :=
  if flag_given args_json then st else push st EvReadStdin.

(** The exit code [main] chooses for a result with this status. *)
Definition exit_code_of (status : string) : Z :=
  if String.eqb status "error" then 3 else 0.

(** ** Sample environments *)

(** A bridge with a device attached whose commands succeed, one with no
    device, one with a device whose command runner raises, and one whose
    every call raises. *)
Definition adb_connected : adb_helper_t :=
  {| check_device_connected := Ret true;
     run_adb := fun _ => Ret (EmptyString, EmptyString, 0) |}.

Definition adb_disconnected : adb_helper_t :=
  {| check_device_connected := Ret false;
     run_adb := fun _ => Ret (EmptyString, "error: no devices/emulators found", 1) |}.

Definition adb_missing : exc :=
  mk_exc "FileNotFoundError" "[Errno 2] No such file or directory: 'adb'".

Definition adb_run_raising : adb_helper_t :=
  {| check_device_connected := Ret true;
     run_adb := fun _ => Raise adb_missing |}.

Definition adb_raising : adb_helper_t :=
  {| check_device_connected := Raise adb_missing;
     run_adb := fun _ => Raise adb_missing |}.

Definition dq : string := String (ascii_of_nat 34) EmptyString.

(** The text [{"action": "done"}] and the text of three spaces. *)
Definition done_json : string :=
  "{" ++ dq ++ "action" ++ dq ++ ": " ++ dq ++ "done" ++ dq ++ "}".

Definition spaces3 : string := "   ".

(** [json.loads] on the sample texts; it rejects a blank text as it does
    every text that holds no value. *)
Definition sample_json_loads (s : string) : outcome (pyval + string) :=
  if String.eqb s done_json then Ret (inl (PDict [("action", PStr "done")]))
  else if String.eqb s spaces3
       then Ret (inr "Expecting value: line 1 column 4 (char 3)")
       else Ret (inr "Expecting value: line 1 column 1 (char 0)").

(** A writable log, a fixed clock and nothing on standard input. *)
Definition sample_env (adb : adb_helper_t) : env :=
  {| adb_helper := adb;
     clock_now := "2024-05-01 10:30:00";
     os_makedirs := Ret tt;
     file_append := fun _ => Ret tt;
     format_value := fun _ => Ret "<repr>";
     json_loads := sample_json_loads;
     stdin_read := EmptyString |}.

(** The same with [{"action": "done"}] piped in. *)
Definition piped_env : env :=
  with_stdin (sample_env adb_connected) (done_json ++ newline).

Definition st0 : state := mk_state [] [].

Definition tap_action (x y : pyval) : pyval :=
  PDict [("action", PStr "tap"); ("coordinates", PList [x; y])].

Definition type_action (text : pyval) : pyval :=
  PDict [("action", PStr "type"); ("text", text)].

Definition plain_action (t : string) : pyval := PDict [("action", PStr t)].

(** ** Further notions *)

(** The ways [validate_action] turns a value down, each with its message:
    not an object, no [action] key, an [action] that is none of the six
    strings and whose rendering returns, and for [tap] and [type] a payload
    that is missing or malformed. *)
Inductive rejected (E : env) : pyval -> string -> Prop :=
| RejNotObject a :
    (forall d, a <> PDict d) ->
    rejected E a "Action must be a JSON object"
| RejNoAction d :
    dict_get d "action" = None ->
    rejected E (PDict d) "Missing 'action' field"
| RejUnknown d v text :
    dict_get d "action" = Some v ->
    (forall t, In t valid_actions -> v <> PStr t) ->
    fstr E v = Ret text ->
    rejected E (PDict d)
      ("Invalid action type '" ++ text ++ "'. Must be one of: "
       ++ "['tap', 'type', 'home', 'back', 'wait', 'done']")
| RejTapMissing d :
    dict_get d "action" = Some (PStr "tap") ->
    dict_get d "coordinates" = None ->
    rejected E (PDict d) "tap action requires 'coordinates' field"
| RejTapShape d c :
    dict_get d "action" = Some (PStr "tap") ->
    dict_get d "coordinates" = Some c ->
    (forall x y, c <> PList [x; y]) ->
    rejected E (PDict d) "coordinates must be [x, y] array"
| RejTapNumeric d x y :
    dict_get d "action" = Some (PStr "tap") ->
    dict_get d "coordinates" = Some (PList [x; y]) ->
    is_int_or_float x && is_int_or_float y = false ->
    rejected E (PDict d) "coordinates must be numeric"
| RejTypeMissing d :
    dict_get d "action" = Some (PStr "type") ->
    dict_get d "text" = None ->
    rejected E (PDict d) "type action requires 'text' field"
| RejTypeNotString d v :
    dict_get d "action" = Some (PStr "type") ->
    dict_get d "text" = Some v ->
    (forall s, v <> PStr s) ->
    rejected E (PDict d) "text must be a string".

(** Two dicts that agree on the three keys the module reads. *)
Definition same_fields (d1 d2 : list (string * pyval)) : Prop :=
  dict_get d1 "action" = dict_get d2 "action" /\
  dict_get d1 "coordinates" = dict_get d2 "coordinates" /\
  dict_get d1 "text" = dict_get d2 "text".

(** The events between the gate and the logger call, by action type:
    none for [done], the pause for [wait], and for the device actions the
    one command, or none when the [try] block failed before it. *)
Definition body_fits (t : string) (body : list event) : Prop :=
  if String.eqb t "done" then body = []
  else if String.eqb t "wait" then body = [EvSleep 2]
  else body = [] \/ exists args, body = [EvRunAdb args].

(** A float that [int] cannot convert. *)
Definition non_finite (v : pyval) : bool :=
  match v with
  | PFloat S754_nan | PFloat (S754_infinity _) => true
  | _ => false
  end.

(** The text of the error [int] raises on such a float. *)
Definition conversion_error (v : pyval) : string :=
  match v with
  | PFloat S754_nan => "cannot convert float NaN to integer"
  | _ => "cannot convert float infinity to integer"
  end.

Definition percent : ascii := ascii_of_nat 37.

(** The text holds no [%] character. *)
Definition no_percent (s : string) : Prop :=
  ~ In percent (list_ascii_of_string s).

(** The number of spaces in a text. *)
Fixpoint count_spaces (s : string) : nat :=
  match s with
  | EmptyString => 0
  | String a rest => (if Ascii.eqb a space then 1 else 0) + count_spaces rest
  end.

(** A text of whitespace characters only, as bytes. *)
Inductive blank_bytes : list ascii -> Prop :=
| BlankNil : blank_bytes []
| Blank1 a l : is_whitespace a = true -> blank_bytes l -> blank_bytes (a :: l)
| Blank2 a b l :
    is_whitespace2 a b = true -> blank_bytes l -> blank_bytes (a :: b :: l)
| Blank3 a b c l :
    is_whitespace3 a b c = true -> blank_bytes l ->
    blank_bytes (a :: b :: c :: l).

Definition blank (s : string) : Prop := blank_bytes (list_ascii_of_string s).

(** The no-break space U+00A0 and the em space U+2003, in UTF-8. *)
Definition nbsp : string :=
  String (ascii_of_nat 194) (String (ascii_of_nat 160) EmptyString).

Definition em_space : string :=
  String (ascii_of_nat 226)
    (String (ascii_of_nat 128) (String (ascii_of_nat 131) EmptyString)).

(** The text [{"action": "back"}], and an environment whose parser knows
    it. *)
Definition back_json : string :=
  "{" ++ dq ++ "action" ++ dq ++ ": " ++ dq ++ "back" ++ dq ++ "}".

Definition with_json (E : env) (parse : string -> outcome (pyval + string)) : env :=
  {| adb_helper := adb_helper E;
     clock_now := clock_now E;
     os_makedirs := os_makedirs E;
     file_append := file_append E;
     format_value := format_value E;
     json_loads := parse;
     stdin_read := stdin_read E |}.

Definition back_env (adb : adb_helper_t) : env :=
  with_json (sample_env adb)
    (fun s => if String.eqb s back_json then Ret (inl (plain_action "back"))
              else if String.eqb s "[1]" then Ret (inl (PList [PInt 1]))
              else sample_json_loads s).





(** The outcomes of [execute_action], one by one. *)
Inductive run_case (E : env) (action : pyval) (st : state) :
    outcome (option result) * state -> Prop :=
| RunValidatorRaised e :
    validate_action E action = Raise e ->
    run_case E action st (Raise e, st)
| RunRejected msg :
    validate_action E action = Ret (false, msg) ->
    run_case E action st (Ret (Some (error_result msg)), st)
| RunNoDevice :
    validation_passed E action -> device_action action = true ->
    check_device_connected (adb_helper E) = Ret false ->
    run_case E action st (Ret (Some no_device), push st EvCheckConnected)
| RunCheckRaised e :
    validation_passed E action -> device_action action = true ->
    check_device_connected (adb_helper E) = Raise e ->
    run_case E action st (Raise e, push st EvCheckConnected)
| RunDispatched d t r st' body details status :
    action = PDict d -> dict_get d "action" = Some (PStr t) ->
    reaches_dispatch E action ->
    trace st' = (trace (after_gate (PStr t) st)
                   ++ body ++ [EvLog t details status])%list ->
    log_file st' = (log_file st ++ logged E (log_line E t details status))%list ->
    body_fits t body ->
    (((exists m, r = success_result t m) /\ status = "SUCCESS") \/
     ((exists m, r = error_result m) /\ exists detail, status = "ERROR: " ++ detail)) ->
    run_case E action st (Ret (Some r), st').


(** * Properties *)

Arguments py_int : simpl never.
Arguments str_int : simpl never.

Ltac unfold_py :=
  unfold execute_action, dispatch, dispatch_failed, keyevent, log_action,
    write_log_entry, call_check_device_connected, call_run_adb, time_sleep,
    try_except, bind, lift, ret, emit in *.

(** ** The logger *)

(** [log_action] in closed form: it returns, having left its event and,
    when the file system allows, its line. *)
Lemma log_action_run (E : env) (t d s : string) (st : state) :
  log_action E t d s st =
    (Ret tt, mk_state (trace st ++ [EvLog t d s])
                      (log_file st ++ logged E (log_line E t d s))).
Proof.
  unfold logged, log_line. unfold_py. simpl.
  destruct (os_makedirs E) as [[]|e]; simpl.
  - destruct (file_append E _) as [[]|e]; simpl; [reflexivity|].
    now rewrite app_nil_r.
  - now rewrite app_nil_r.
Qed.

(** ** The validator *)

(** Only a string is among the valid actions. *)
Lemma py_in_valid_actions (v : pyval) :
  py_in v valid_actions = true ->
  exists t, v = PStr t /\ In t valid_actions.
Proof.
  unfold py_in. intros H. apply existsb_exists in H as (s & Hin & Heq).
  destruct v; simpl in Heq; try discriminate.
  apply String.eqb_eq in Heq. subst. eauto.
Qed.

(** What [validate_action] accepts is a dict holding a well-formed action. *)
Lemma validate_action_accepts (E : env) (action : pyval) (msg : string) :
  validate_action E action = Ret (true, msg) ->
  exists d t, action = PDict d /\ dict_get d "action" = Some (PStr t) /\
              well_formed d t.
Proof.
  unfold validate_action. intros H.
  destruct action as [| | | | |items|d]; try discriminate.
  destruct (dict_get d "action") as [v|] eqn:Hact; try discriminate.
  destruct (py_in v valid_actions) eqn:Hin; cbn [negb] in H;
    [|destruct (fstr E v); discriminate].
  destruct (py_in_valid_actions _ Hin) as (t & -> & Ht).
  exists d, t. split; [reflexivity|]. split; [assumption|].
  simpl in Ht.
  destruct Ht as [<-|[<-|[<-|[<-|[<-|[<-|[]]]]]]]; simpl in H;
    try (constructor; fail).
  - destruct (dict_get d "coordinates") as [[| | | | |items|]|] eqn:Hc;
      try discriminate.
    destruct items as [|x [|y [|z items]]]; simpl in H; try discriminate.
    destruct (is_int_or_float x) eqn:Hx; simpl in H; try discriminate.
    destruct (is_int_or_float y) eqn:Hy; simpl in H; try discriminate.
    now apply (WfTap d x y).
  - destruct (dict_get d "text") as [[| | | |s| |]|] eqn:Hc; try discriminate.
    now apply (WfType d s).
Qed.

(** And it accepts every such dict, with the empty message. *)
Lemma validate_action_well_formed (E : env) (d : list (string * pyval)) (t : string) :
  dict_get d "action" = Some (PStr t) -> well_formed d t ->
  validate_action E (PDict d) = Ret (true, EmptyString).
Proof.
  intros Hact Hwf. unfold validate_action. rewrite Hact.
  destruct Hwf as [x y Hc Hx Hy|s Hs| | | |]; simpl; try reflexivity.
  - rewrite Hc. simpl. now rewrite Hx, Hy.
  - now rewrite Hs.
Qed.

(** ** The dispatcher *)

(** [execute_action] on a well-formed action, up to the [try] block. *)
Lemma execute_action_gate (E : env) (d : list (string * pyval)) (t : string) (st : state) :
  dict_get d "action" = Some (PStr t) -> well_formed d t ->
  let run := try_except (dispatch E (PDict d) (PStr t))
                        (dispatch_failed E (PStr t)) in
  let st1 := mk_state (trace st ++ [EvCheckConnected]) (log_file st) in
  execute_action E (PDict d) st =
    if py_in (PStr t) ["done"; "wait"] then run st
    else match check_device_connected (adb_helper E) with
         | Ret true => run st1
         | Ret false => (Ret (Some no_device), st1)
         | Raise e => (Raise e, st1)
         end.
Proof.
  intros Hact Hwf run st1. unfold execute_action.
  rewrite (validate_action_well_formed E d t Hact Hwf).
  unfold bind at 1. unfold lift at 1. cbn [negb].
  unfold bind at 1. unfold lift at 1. cbn [getitem]. rewrite Hact.
  destruct (py_in (PStr t) ["done"; "wait"]); cbn [negb]; [reflexivity|].
  unfold call_check_device_connected, bind, emit, lift, ret.
  destruct (check_device_connected (adb_helper E)) as [[]|e]; reflexivity.
Qed.

Ltac exec_simpl :=
  cbn [py_eq_str String.eqb Ascii.eqb Bool.eqb fstr getitem unpack2 encode_text
       Z.eqb negb fst snd trace log_file].

Ltac exec_step :=
  match goal with
  | |- context [log_action ?E ?t ?d ?s ?st] => rewrite (log_action_run E t d s st)
  | H : dict_get ?d ?k = _ |- context [dict_get ?d ?k] => rewrite H
  | H : py_int ?x = _ |- context [py_int ?x] => rewrite H
  | H : str_int ?x = _ |- context [str_int ?x] => rewrite H
  | H : run_adb ?a ?args = _ |- context [run_adb ?a ?args] => rewrite H
  | |- context [py_int ?x] => destruct (py_int x) as [?|?] eqn:?
  | |- context [str_int ?x] => destruct (str_int x) as [?|?] eqn:?
  | |- context [run_adb ?a ?args] =>
      destruct (run_adb a args) as [[[? ?] ?]|?] eqn:?
  | |- context [if negb (?c =? 0) then _ else _] => destruct (c =? 0) eqn:?
  end.

Ltac exec :=
  unfold dispatch, dispatch_failed, keyevent, call_run_adb, time_sleep,
    try_except, bind, lift, ret, emit;
  exec_simpl; repeat (exec_step; exec_simpl).

(** The guarded dispatch of a well-formed action always returns a result
    dictionary and calls the logger once, whatever the bridge does. *)
Lemma guarded_dispatch_returns (E : env) (d : list (string * pyval)) (t : string) (st : state) :
  well_formed d t ->
  exists r st' evs,
    try_except (dispatch E (PDict d) (PStr t)) (dispatch_failed E (PStr t)) st
      = (Ret (Some r), st') /\
    trace st' = (trace st ++ evs)%list /\
    (dict_get r "status" = Some "success" \/ dict_get r "status" = Some "error") /\
    log_attempts evs = 1%nat /\
    ~ In EvCheckConnected evs /\
    forallb is_dispatch_event evs = true.
Proof.
  intros Hwf.
  destruct Hwf as [x y Hc Hx Hy|s Hs| | | |]; exec;
    (eexists _, _, _; split; [reflexivity|]; cbn [trace];
     rewrite <- ?app_assoc; split; [reflexivity|];
     split; [simpl; auto|]; split; [reflexivity|];
     split; [simpl; intuition discriminate|reflexivity]).
Qed.

(** ** Results and log entries *)






(** ** The connectivity gate *)

(** C2.  A validated action whose type is not [wait] or [done], with the
    connectivity check returning false, yields the "No Android device
    connected" error after the check alone: no command is run, the logger
    is not called and the log file is unchanged.  For [wait] and [done] the
    check is not performed. *)
Theorem no_device_halts (E : env) (action t : pyval) (st : state) :
  validation_passed E action ->
  getitem action "action" = Ret t ->
  (py_in t ["done"; "wait"] = false ->
   check_device_connected (adb_helper E) = Ret false ->
   execute_action E action st =
     (Ret (Some [("status", "error"); ("message", "No Android device connected")]),
      mk_state (trace st ++ [EvCheckConnected]) (log_file st))) /\
  (py_in t ["done"; "wait"] = true ->
   exists r st' evs,
     execute_action E action st = (Ret (Some r), st') /\
     trace st' = (trace st ++ evs)%list /\
     ~ In EvCheckConnected evs).
Proof.
  unfold validation_passed. intros Hv Hget.
  destruct (validate_action E action) as [[ok msg]|e0] eqn:Hva;
    cbn [verdict] in Hv; [subst ok|discriminate].
  destruct (validate_action_accepts E action msg Hva) as (d & s & -> & Hact & Hwf).
  cbn [getitem] in Hget. rewrite Hact in Hget. injection Hget as <-.
  rewrite (execute_action_gate E d s st Hact Hwf). cbv zeta.
  split; intros Hin.
  - intros Hc. now rewrite Hin, Hc.
  - rewrite Hin.
    destruct (guarded_dispatch_returns E d s st Hwf)
      as (r & st' & evs & Hrun & Htr & _ & _ & Hno & _).
    now exists r, st', evs.
Qed.

Lemma no_device_halts_witness :
  execute_action (sample_env adb_disconnected) (plain_action "back") st0 =
    (Ret (Some [("status", "error"); ("message", "No Android device connected")]),
     mk_state [EvCheckConnected] []).
Proof.
  apply (no_device_halts (sample_env adb_disconnected) (plain_action "back")
           (PStr "back") st0); reflexivity.
Defined.

(** ** The [done] action *)

(** C7.  On every dict whose [action] is [done], whatever else it holds,
    [execute_action] returns exactly the success result of [done]; the
    only event is the call of the logger, so the bridge is not called, and
    the result is the same in every environment and from every state. *)
Theorem done_is_immediate (E : env) (d : list (string * pyval)) (st : state) :
  dict_get d "action" = Some (PStr "done") ->
  execute_action E (PDict d) st =
    (Ret (Some [("status", "success"); ("action", "done");
                ("message", "Goal achieved - task complete")]),
     mk_state (trace st ++ [EvLog "done" EmptyString "SUCCESS"])
              (log_file st ++ logged E (log_line E "done" EmptyString "SUCCESS"))) /\
  (forall E' st',
     fst (execute_action E' (PDict d) st') = fst (execute_action E (PDict d) st)).
Proof.
  intros Hact.
  assert (Hrun : forall E0 st1,
    execute_action E0 (PDict d) st1 =
    (Ret (Some (success_result "done" "Goal achieved - task complete")),
     mk_state (trace st1 ++ [EvLog "done" EmptyString "SUCCESS"])
              (log_file st1 ++ logged E0 (log_line E0 "done" EmptyString "SUCCESS")))).
  { intros E0 st1.
    rewrite (execute_action_gate E0 d "done" st1 Hact (WfDone d)). cbv zeta.
    cbn [py_in existsb py_eq_str String.eqb Ascii.eqb Bool.eqb orb].
    exec. reflexivity. }
  split; [apply Hrun|]. intros E' st'. now rewrite !Hrun.
Qed.

Lemma done_is_immediate_witness :
  execute_action (sample_env adb_raising)
    (PDict [("reason", PStr "all set"); ("action", PStr "done")]) st0 =
    (Ret (Some [("status", "success"); ("action", "done");
                ("message", "Goal achieved - task complete")]),
     mk_state [EvLog "done" EmptyString "SUCCESS"]
       ["[2024-05-01 10:30:00] ACTION: done() -> SUCCESS" ++ newline]).
Proof.
  apply (done_is_immediate (sample_env adb_raising)
           [("reason", PStr "all set"); ("action", PStr "done")] st0).
  reflexivity.
Defined.

(** ** Tap coordinates *)

(** C4.  For a dict whose [action] is [tap], validation succeeds exactly
    when [coordinates] is present and is a list of two numbers.  The lists
    [1, 2] and [1.5, 2.5] pass; a list of two strings fails as not numeric,
    lists of one or three numbers fail as not being an [x, y] array, and a
    dict without [coordinates] fails with the missing-field message. *)
Theorem tap_coordinates_validated (E : env) (d : list (string * pyval)) :
  dict_get d "action" = Some (PStr "tap") ->
  (validation_passed E (PDict d) <->
   exists x y, dict_get d "coordinates" = Some (PList [x; y]) /\
               is_int_or_float x = true /\ is_int_or_float y = true) /\
  (dict_get d "coordinates" = Some (PList [PInt 1; PInt 2]) ->
   validate_action E (PDict d) = Ret (true, EmptyString)) /\
  (dict_get d "coordinates" =
     Some (PList [PFloat (S754_finite false 3 (-1)); PFloat (S754_finite false 5 (-1))]) ->
   validate_action E (PDict d) = Ret (true, EmptyString)) /\
  (dict_get d "coordinates" = Some (PList [PStr "a"; PStr "b"]) ->
   validate_action E (PDict d) = Ret (false, "coordinates must be numeric")) /\
  (dict_get d "coordinates" = Some (PList [PInt 1]) ->
   validate_action E (PDict d) = Ret (false, "coordinates must be [x, y] array")) /\
  (dict_get d "coordinates" = Some (PList [PInt 1; PInt 2; PInt 3]) ->
   validate_action E (PDict d) = Ret (false, "coordinates must be [x, y] array")) /\
  (dict_get d "coordinates" = None ->
   validate_action E (PDict d)
     = Ret (false, "tap action requires 'coordinates' field")).
Proof.
  intros Hact. split.
  - unfold validation_passed. split.
    + destruct (validate_action E (PDict d)) as [[ok msg]|e0] eqn:Hv;
        cbn [verdict]; [|discriminate].
      intros ->.
      destruct (validate_action_accepts E _ msg Hv) as (d' & t & Heq & Hact' & Hwf).
      injection Heq as <-. rewrite Hact in Hact'. injection Hact' as <-.
      inversion Hwf as [x y Hc Hx Hy| | | | |]. eauto.
    + intros (x & y & Hc & Hx & Hy).
      now rewrite (validate_action_well_formed E d "tap" Hact (WfTap d x y Hc Hx Hy)).
  - unfold validate_action. rewrite Hact. simpl.
    repeat split; intros ->; reflexivity.
Qed.

Lemma tap_coordinates_validated_witness :
  validate_action (sample_env adb_connected)
    (tap_action (PFloat (S754_finite false 3 (-1))) (PFloat (S754_finite false 5 (-1))))
    = Ret (true, EmptyString) /\
  validate_action (sample_env adb_connected) (tap_action (PStr "a") (PStr "b"))
    = Ret (false, "coordinates must be numeric") /\
  validate_action (sample_env adb_connected) (plain_action "tap")
    = Ret (false, "tap action requires 'coordinates' field").
Proof.
  split; [|split].
  - apply (tap_coordinates_validated (sample_env adb_connected)
      [("action", PStr "tap");
       ("coordinates", PList [PFloat (S754_finite false 3 (-1));
                              PFloat (S754_finite false 5 (-1))])]);
      reflexivity.
  - apply (tap_coordinates_validated (sample_env adb_connected)
      [("action", PStr "tap"); ("coordinates", PList [PStr "a"; PStr "b"])]);
      reflexivity.
  - apply (tap_coordinates_validated (sample_env adb_connected)
      [("action", PStr "tap")]); reflexivity.
Defined.

(** C10.  The tap action with coordinates [true, false] passes validation,
    and with a connected device and a command that exits with code 0 it
    succeeds with the message "Tapped at (1, 0)": the booleans are turned
    into the integers 1 and 0. *)
Theorem tap_booleans_coerced (E : env) (st : state) (out err : string) :
  check_device_connected (adb_helper E) = Ret true ->
  run_adb (adb_helper E) ["shell"; "input"; "tap"; "1"; "0"] = Ret (out, err, 0) ->
  validate_action E (tap_action (PBool true) (PBool false)) = Ret (true, EmptyString) /\
  execute_action E (tap_action (PBool true) (PBool false)) st =
    (Ret (Some [("status", "success"); ("action", "tap");
                ("message", "Tapped at (1, 0)")]),
     mk_state (trace st ++ [EvCheckConnected;
                            EvRunAdb ["shell"; "input"; "tap"; "1"; "0"];
                            EvLog "tap" "1,0" "SUCCESS"])
              (log_file st ++ logged E (log_line E "tap" "1,0" "SUCCESS"))).
Proof.
  intros Hc Hrun. split; [reflexivity|].
  assert (H1 : py_int (PBool true) = Ret 1) by reflexivity.
  assert (H0 : py_int (PBool false) = Ret 0) by reflexivity.
  assert (S1 : str_int 1 = Ret "1") by reflexivity.
  assert (S0 : str_int 0 = Ret "0") by reflexivity.
  unfold tap_action.
  set (d := [("action", PStr "tap");
             ("coordinates", PList [PBool true; PBool false])]).
  rewrite (execute_action_gate E d "tap" st eq_refl
             (WfTap d (PBool true) (PBool false) eq_refl eq_refl eq_refl)).
  subst d.
  cbv zeta. cbn [py_in existsb py_eq_str String.eqb Ascii.eqb Bool.eqb orb].
  rewrite Hc. exec. cbn [dict_get String.eqb Ascii.eqb Bool.eqb]. exec.
  rewrite <- !app_assoc. reflexivity.
Qed.

Lemma tap_booleans_coerced_witness :
  fst (execute_action (sample_env adb_connected)
         (tap_action (PBool true) (PBool false)) st0) =
  Ret (Some [("status", "success"); ("action", "tap");
             ("message", "Tapped at (1, 0)")]).
Proof.
  refine (f_equal fst (proj2 (tap_booleans_coerced (sample_env adb_connected) st0
            EmptyString EmptyString _ _))); reflexivity.
Defined.

(** ** Typing text *)


(** No space is left in the escaped text. *)
Lemma str_replace_no_space (s : string) :
  ~ In space (list_ascii_of_string (str_replace s space "%s")).
Proof.
  induction s as [|a s IH]; [intros []|].
  cbn [str_replace]. destruct (Ascii.eqb a space) eqn:Ha.
  - simpl. intros [H|[H|H]]; [discriminate H|discriminate H|now apply IH].
  - simpl. intros [H|H]; [|now apply IH].
    subst a. now rewrite Ascii.eqb_refl in Ha.
Qed.



(** ** Exceptions *)

(** C3, as stated, fails: the connectivity check is called before the
    [try] block, and an exception it raises reaches the caller of
    [execute_action]; no result is returned and nothing is logged. *)
Lemma connectivity_fault_propagates :
  execute_action (sample_env adb_raising) (plain_action "back") st0 =
    (Raise adb_missing, mk_state [EvCheckConnected] []).
Proof. reflexivity. Qed.

(** C3, amended.  For a validated action that passed the gate,
    [execute_action] returns a result whatever happens during dispatch;
    every exception raised by the dispatch is followed by one call of the
    logger with status ERROR and the exception text, and the result is the
    "Execution error" dictionary with that text.  An exception raised by
    the connectivity check itself is not caught: it is the outcome of
    [execute_action]. *)
Theorem dispatch_exceptions_caught (E : env) (action t : pyval) (st : state) :
  validation_passed E action ->
  getitem action "action" = Ret t ->
  exists name,
    t = PStr name /\
    ((py_in t ["done"; "wait"] = false ->
      check_device_connected (adb_helper E) = Ret true) ->
     (exists r st', execute_action E action st = (Ret (Some r), st')) /\
     (forall e st2,
        dispatch E action t (after_gate t st) = (Raise e, st2) ->
        let status := "ERROR: " ++ exc_text e in
        execute_action E action st =
          (Ret (Some [("status", "error");
                      ("message", "Execution error: " ++ exc_text e)]),
           mk_state (trace st2 ++ [EvLog name EmptyString status])
                    (log_file st2
                       ++ logged E (log_line E name EmptyString status))))) /\
    (forall e,
       py_in t ["done"; "wait"] = false ->
       check_device_connected (adb_helper E) = Raise e ->
       execute_action E action st =
         (Raise e, mk_state (trace st ++ [EvCheckConnected]) (log_file st))).
Proof.
  unfold validation_passed. intros Hv Hget.
  destruct (validate_action E action) as [[ok msg]|e0] eqn:Hva;
    cbn [verdict] in Hv; [subst ok|discriminate].
  destruct (validate_action_accepts E action msg Hva) as (d & s & -> & Hact & Hwf).
  cbn [getitem] in Hget. rewrite Hact in Hget. injection Hget as <-.
  exists s. split; [reflexivity|].
  rewrite (execute_action_gate E d s st Hact Hwf). cbv zeta.
  unfold after_gate, push. split.
  - intros Hgate.
    assert (Hrun : forall st1,
      (if py_in (PStr s) ["done"; "wait"] then
         try_except (dispatch E (PDict d) (PStr s)) (dispatch_failed E (PStr s)) st
       else
         match check_device_connected (adb_helper E) with
         | Ret true =>
             try_except (dispatch E (PDict d) (PStr s)) (dispatch_failed E (PStr s)) st1
         | Ret false => (Ret (Some no_device), st1)
         | Raise e => (Raise e, st1)
         end) =
      try_except (dispatch E (PDict d) (PStr s)) (dispatch_failed E (PStr s))
        (if py_in (PStr s) ["done"; "wait"] then st else st1)).
    { intros st1. destruct (py_in (PStr s) ["done"; "wait"]); [reflexivity|].
      now rewrite Hgate. }
    rewrite Hrun. split.
    + destruct (guarded_dispatch_returns E d s
                  (if py_in (PStr s) ["done"; "wait"] then st
                   else mk_state (trace st ++ [EvCheckConnected]) (log_file st)) Hwf)
        as (r & st' & _ & Hr & _). eauto.
    + intros e st2 Hraise. unfold try_except. rewrite Hraise.
      unfold dispatch_failed, bind, lift, ret. cbn [fstr].
      now rewrite log_action_run.
  - intros e Hin Hc. now rewrite Hin, Hc.
Qed.

Lemma dispatch_exceptions_caught_witness :
  execute_action (sample_env adb_run_raising) (plain_action "home") st0 =
    (Ret (Some [("status", "error");
                ("message", "Execution error: " ++ exc_text adb_missing)]),
     mk_state [EvCheckConnected;
               EvRunAdb ["shell"; "input"; "keyevent"; "KEYCODE_HOME"];
               EvLog "home" EmptyString ("ERROR: " ++ exc_text adb_missing)]
       [log_line (sample_env adb_run_raising) "home" EmptyString
          ("ERROR: " ++ exc_text adb_missing)]).
Proof.
  destruct (dispatch_exceptions_caught (sample_env adb_run_raising)
              (plain_action "home") (PStr "home") st0 eq_refl eq_refl)
    as (name & Hname & Hcaught & _).
  injection Hname as <-.
  exact (proj2 (Hcaught (fun _ => eq_refl))
           adb_missing
           (mk_state [EvCheckConnected;
                      EvRunAdb ["shell"; "input"; "keyevent"; "KEYCODE_HOME"]] [])
           eq_refl).
Defined.

(** ** Logging failures *)

(** Validation does not look at the file system. *)
Lemma validate_action_with_fs (E : env) mk ap (action : pyval) :
  validate_action (with_fs E mk ap) action = validate_action E action.
Proof. reflexivity. Qed.

(** Nor do the result and the events of the guarded dispatch depend on it. *)
Lemma guarded_dispatch_with_fs (E : env) mk ap (d : list (string * pyval)) (t : string)
    (st : state) :
  well_formed d t ->
  let run E0 := try_except (dispatch E0 (PDict d) (PStr t))
                           (dispatch_failed E0 (PStr t)) st in
  fst (run (with_fs E mk ap)) = fst (run E) /\
  trace (snd (run (with_fs E mk ap))) = trace (snd (run E)).
Proof.
  intros Hwf run. subst run. cbv beta.
  destruct Hwf as [x y Hc Hx Hy|s Hs| | | |];
    unfold dispatch, keyevent, call_run_adb; cbn [adb_helper with_fs];
    exec; split; reflexivity.
Qed.

(** C8.  [log_action] returns normally on every input, whether or not the
    directory can be made and the file written; and the result of
    [execute_action], like the events it leaves, is the same under every
    file system: a log write that fails changes nothing but the log file. *)
Theorem logging_failures_swallowed (E : env) :
  (forall t d s st,
     log_action E t d s st =
       (Ret tt, mk_state (trace st ++ [EvLog t d s])
                         (log_file st ++ logged E (log_line E t d s)))) /\
  (forall mk ap action st,
     fst (execute_action (with_fs E mk ap) action st) = fst (execute_action E action st) /\
     trace (snd (execute_action (with_fs E mk ap) action st))
       = trace (snd (execute_action E action st))).
Proof.
  split; [apply log_action_run|].
  intros mk ap action st.
  destruct (validate_action E action) as [[[|] msg]|e0] eqn:Hv.
  - destruct (validate_action_accepts E action msg Hv) as (d & t & -> & Hact & Hwf).
    rewrite !(execute_action_gate _ d t st Hact Hwf). cbv zeta.
    cbn [adb_helper with_fs].
    destruct (py_in (PStr t) ["done"; "wait"]).
    + now apply guarded_dispatch_with_fs.
    + destruct (check_device_connected (adb_helper E)) as [[|]|e];
        [now apply guarded_dispatch_with_fs|split; reflexivity..].
  - unfold execute_action. rewrite validate_action_with_fs, Hv.
    split; reflexivity.
  - unfold execute_action. rewrite validate_action_with_fs, Hv.
    split; reflexivity.
Qed.

(** The tap scenario of the specification, with a log directory that
    cannot be made: the tap is reported as successful all the same. *)
Example tap_succeeds_without_log :
  execute_action
    (with_fs (sample_env adb_connected)
       (Raise (mk_exc "PermissionError" "[Errno 13] Permission denied: 'logs'"))
       (fun _ => Ret tt))
    (tap_action (PInt 540) (PInt 1200)) st0 =
  (Ret (Some [("status", "success"); ("action", "tap");
              ("message", "Tapped at (540, 1200)")]),
   mk_state [EvCheckConnected;
             EvRunAdb ["shell"; "input"; "tap"; "540"; "1200"];
             EvLog "tap" "540,1200" "SUCCESS"] []).
Proof. reflexivity. Qed.

(** Further runs: the empty object, a value that is no object, and float
    coordinates. *)
Example empty_object_rejected :
  execute_action (sample_env adb_connected) (PDict []) st0 =
    (Ret (Some [("status", "error"); ("message", "Missing 'action' field")]), st0).
Proof. reflexivity. Qed.

Example non_object_rejected :
  execute_action (sample_env adb_connected) (PList [PInt 1]) st0 =
    (Ret (Some [("status", "error"); ("message", "Action must be a JSON object")]), st0).
Proof. reflexivity. Qed.

Example tap_nan_is_caught :
  fst (execute_action (sample_env adb_connected)
         (tap_action (PFloat S754_nan) (PInt 3)) st0) =
    Ret (Some [("status", "error");
               ("message", "Execution error: cannot convert float NaN to integer")]).
Proof. reflexivity. Qed.

Example tap_float_truncated :
  fst (execute_action (sample_env adb_connected)
         (tap_action (PFloat (S754_finite false 3 (-1)))
                     (PFloat (S754_finite true 5 (-1)))) st0) =
    Ret (Some [("status", "success"); ("action", "tap");
               ("message", "Tapped at (1, -2)")]).
Proof. reflexivity. Qed.

(** ** The entry point *)

(** [main] step by step. *)
Lemma main_run (E : env) (args_json : option string) (st : state) :
  main E args_json st =
    let input := action_input E args_json in
    let st1 := after_input args_json st in
    if str_is_empty input then (Ret 1, push st1 (EvPrint (Some no_action) None))
    else
      let st2 := push st1 (EvJsonLoads input) in
      match json_loads E input with
      | Raise e => (Raise e, st2)
      | Ret (inr msg) =>
          (Ret 1, push st2 (EvPrint (Some (error_result ("Invalid JSON: " ++ msg))) None))
      | Ret (inl action) =>
          match execute_action E action st2 with
          | (Ret r, st3) =>
              match result_getitem r "status" with
              | Ret status => (Ret (exit_code_of status), push st3 (EvPrint r (Some 2)))
              | Raise e => (Raise e, push st3 (EvPrint r (Some 2)))
              end
          | (Raise e, st3) => (Raise e, st3)
          end
      end.
Proof.
  cbv zeta. unfold main. unfold bind at 1.
  assert (Hrest : forall input st1,
    (if str_is_empty input
     then print_json (Some (error_result
            "No action provided. Use --json flag or pipe JSON via stdin")) None ;;
          ret 1
     else
       parsed <- call_json_loads E input ;;
       match parsed with
       | inr msg =>
           print_json (Some (error_result ("Invalid JSON: " ++ msg))) None ;; ret 1
       | inl action =>
           result <- execute_action E action ;;
           print_json result (Some 2) ;;
           status <- lift (result_getitem result "status") ;;
           if String.eqb status "error" then ret 3
           else
             done <- lift (result_get result "action") ;;
             if opt_eq_str done "done" then ret 0 else ret 0
       end) st1 =
    if str_is_empty input then (Ret 1, push st1 (EvPrint (Some no_action) None))
    else
      match json_loads E input with
      | Raise e => (Raise e, push st1 (EvJsonLoads input))
      | Ret (inr msg) =>
          (Ret 1, push (push st1 (EvJsonLoads input))
                    (EvPrint (Some (error_result ("Invalid JSON: " ++ msg))) None))
      | Ret (inl action) =>
          match execute_action E action (push st1 (EvJsonLoads input)) with
          | (Ret r, st3) =>
              match result_getitem r "status" with
              | Ret status => (Ret (exit_code_of status), push st3 (EvPrint r (Some 2)))
              | Raise e => (Raise e, push st3 (EvPrint r (Some 2)))
              end
          | (Raise e, st3) => (Raise e, st3)
          end
      end).
  { intros input st1. destruct (str_is_empty input); [reflexivity|].
    unfold call_json_loads, print_json, bind, emit, lift, ret, push, exit_code_of.
    cbn [trace log_file].
    destruct (json_loads E input) as [[action|msg]|e]; [|reflexivity..].
    destruct (execute_action E action _) as [[r|e] st3]; [|reflexivity].
    destruct r as [r|]; cbn [result_getitem result_get]; [|reflexivity].
    destruct (dict_get r "status") as [status|]; [|reflexivity].
    destruct (String.eqb status "error"); [reflexivity|].
    destruct (opt_eq_str (dict_get r "action") "done"); reflexivity. }
  assert (Hread : forall st1,
    (text <- read_stdin E ;; ret (str_strip text)) st1 =
    (Ret (str_strip (stdin_read E)), push st1 EvReadStdin)) by reflexivity.
  unfold action_input, after_input, flag_given.
  destruct args_json as [s|].
  - destruct (str_is_empty s) eqn:Hs; cbn [negb].
    + rewrite Hread. apply Hrest.
    + unfold ret at 1. apply Hrest.
  - rewrite Hread. apply Hrest.
Qed.







(** Events are only ever added: whatever [execute_action] does, the
    trace it leaves extends the one it found. *)
Lemma execute_action_trace_extends (E : env) (action : pyval) (st : state) :
  exists evs, trace (snd (execute_action E action st)) = (trace st ++ evs)%list.
Proof.
  destruct (validate_action E action) as [[[|] msg]|e0] eqn:Hv;
    [|exists []; unfold execute_action; rewrite Hv; cbn [snd];
      now rewrite app_nil_r..].
  - destruct (validate_action_accepts E action msg Hv) as (d & t & -> & Hact & Hwf).
    rewrite (execute_action_gate E d t st Hact Hwf). cbv zeta.
    destruct (py_in (PStr t) ["done"; "wait"]).
    + destruct (guarded_dispatch_returns E d t st Hwf)
        as (r & st' & evs & Hrun & Htr & _).
      exists evs. now rewrite Hrun.
    + destruct (check_device_connected (adb_helper E)) as [[|]|e].
      * destruct (guarded_dispatch_returns E d t
                    (mk_state (trace st ++ [EvCheckConnected]) (log_file st)) Hwf)
          as (r & st' & evs & Hrun & Htr & _).
        exists (EvCheckConnected :: evs). rewrite Hrun. cbn [snd].
        rewrite Htr. cbn [trace]. now rewrite <- app_assoc.
      * now exists [EvCheckConnected].
      * now exists [EvCheckConnected].
Qed.

(** ** Choice of the input *)

(** C9, as stated, fails.  A [--json] flag of three spaces is empty after
    trimming, yet it is handed to [json.loads] and the error printed is the
    parser's, not "No action provided"; and an empty [--json] flag is not
    the action string: standard input is read and its action executed. *)
Lemma blank_flag_is_parsed :
  str_is_empty (str_strip spaces3) = true /\
  main piped_env (Some spaces3) st0 =
    (Ret 1,
     mk_state [EvJsonLoads spaces3;
               EvPrint (Some [("status", "error");
                              ("message", "Invalid JSON: Expecting value: line 1 column 4 (char 3)")])
                       None] []) /\
  fst (main piped_env (Some EmptyString) st0) = Ret 0.
Proof. repeat split. Qed.

(** The empty string stays empty when trimmed. *)
Lemma str_strip_empty : str_strip EmptyString = EmptyString.
Proof. reflexivity. Qed.

(** C9, amended.  When the [--json] flag holds a string that is not blank,
    that string is the action string and standard input is not read: the
    first thing [main] does is hand it to [json.loads].  When the flag is
    absent or empty, standard input is read to its end and trimmed; if the
    outcome is empty, [main] prints the "No action provided" error and
    exits with status 1 without calling [json.loads], and otherwise it
    hands the trimmed input to [json.loads]. *)
Theorem input_selection (E : env) (args_json : option string) (st : state) :
  (forall s, args_json = Some s -> str_is_empty (str_strip s) = false ->
     exists o st' evs,
       main E args_json st = (o, st') /\
       trace st' = (trace st ++ EvJsonLoads s :: evs)%list) /\
  (flag_given args_json = false ->
   let input := str_strip (stdin_read E) in
   (str_is_empty input = true ->
    main E args_json st =
      (Ret 1,
       mk_state
         (trace st ++
          [EvReadStdin;
           EvPrint (Some [("status", "error");
                          ("message",
                           "No action provided. Use --json flag or pipe JSON via stdin")])
                   None])
         (log_file st))) /\
   (str_is_empty input = false ->
    exists o st' evs,
      main E args_json st = (o, st') /\
      trace st' = (trace st ++ EvReadStdin :: EvJsonLoads input :: evs)%list)).
Proof.
  assert (Hparse : forall input st1,
    exists o st' evs,
      match json_loads E input with
      | Raise e => (Raise e, push st1 (EvJsonLoads input))
      | Ret (inr msg) =>
          (Ret 1, push (push st1 (EvJsonLoads input))
             (EvPrint (Some (error_result ("Invalid JSON: " ++ msg))) None))
      | Ret (inl action) =>
          match execute_action E action (push st1 (EvJsonLoads input)) with
          | (Ret r, st3) =>
              match result_getitem r "status" with
              | Ret status => (Ret (exit_code_of status), push st3 (EvPrint r (Some 2)))
              | Raise e => (Raise e, push st3 (EvPrint r (Some 2)))
              end
          | (Raise e, st3) => (Raise e, st3)
          end
      end = (o, st') /\
      trace st' = (trace st1 ++ EvJsonLoads input :: evs)%list).
  { intros input st1.
    destruct (json_loads E input) as [[action|msg]|e0];
      [| |eexists _, _, []; split; [reflexivity|reflexivity]].
    - destruct (execute_action_trace_extends E action (push st1 (EvJsonLoads input)))
        as [evs Hevs].
      destruct (execute_action E action (push st1 (EvJsonLoads input)))
        as [[r|e] st3]; cbn [snd push trace] in Hevs.
      + destruct (result_getitem r "status") as [status|e];
          (eexists _, _, (evs ++ [EvPrint r (Some 2)])%list; split; [reflexivity|];
           cbn [push trace]; rewrite Hevs, <- !app_assoc; reflexivity).
      + eexists _, _, evs. split; [reflexivity|].
        rewrite Hevs, <- !app_assoc. reflexivity.
    - eexists _, _, [_]. split; [reflexivity|].
      cbn [push trace]. rewrite <- !app_assoc. reflexivity. }
  rewrite main_run. cbv zeta. split.
  - intros s -> Hs.
    assert (Hne : str_is_empty s = false).
    { destruct s; [|reflexivity]. rewrite str_strip_empty in Hs. discriminate. }
    unfold action_input, after_input, flag_given. rewrite Hne. cbn [negb].
    rewrite Hne. apply Hparse.
  - intros Hflag.
    assert (Hin : action_input E args_json = str_strip (stdin_read E)).
    { unfold action_input. destruct args_json as [s|]; [|reflexivity].
      unfold flag_given in Hflag. now rewrite Hflag. }
    rewrite Hin. unfold after_input. rewrite Hflag. split; intros Hempty; rewrite Hempty.
    + unfold push. cbn [trace log_file]. now rewrite <- app_assoc.
    + destruct (Hparse (str_strip (stdin_read E)) (push st EvReadStdin))
        as (o & st' & evs & Hrun & Htr).
      exists o, st', evs. split; [exact Hrun|].
      rewrite Htr. cbn [push trace]. now rewrite <- app_assoc.
Qed.

Lemma input_selection_witness :
  (exists o st' evs,
     main piped_env (Some done_json) st0 = (o, st') /\
     trace st' = (trace st0 ++ EvJsonLoads done_json :: evs)%list) /\
  main (sample_env adb_connected) (Some EmptyString) st0 =
    (Ret 1,
     mk_state
       [EvReadStdin;
        EvPrint (Some [("status", "error");
                       ("message",
                        "No action provided. Use --json flag or pipe JSON via stdin")])
                None] []).
Proof.
  split.
  - exact (proj1 (input_selection piped_env (Some done_json) st0)
             done_json eq_refl eq_refl).
  - exact (proj1 (proj2 (input_selection (sample_env adb_connected)
                           (Some EmptyString) st0) eq_refl) eq_refl).
Defined.

(** * Further properties of the module *)

(** ** The validator, against its rejections *)

(** The six names, and nothing else, are among the valid actions. *)
Lemma py_in_valid_actions_false (v : pyval) :
  py_in v valid_actions = false <->
  (forall t, In t valid_actions -> v <> PStr t).
Proof.
  split.
  - intros H t Ht ->.
    assert (Hex : py_in (PStr t) valid_actions = true).
    { apply existsb_exists. exists t. split; [exact Ht|]. apply String.eqb_refl. }
    rewrite Hex in H. discriminate.
  - intros H. destruct (py_in v valid_actions) eqn:Hin; [|reflexivity].
    destruct (py_in_valid_actions v Hin) as (t & -> & Ht).
    now destruct (H t Ht).
Qed.

(** X1.  [validate_action] accepts a value exactly when it is a dict whose
    [action] is one of the six strings and whose payload is well formed;
    it then returns the empty message, and a refusal never has an empty
    message. *)
Theorem validate_action_sound_complete (E : env) (action : pyval) :
  (validation_passed E action <->
   exists d t, action = PDict d /\ dict_get d "action" = Some (PStr t) /\
               well_formed d t) /\
  (forall msg, validate_action E action = Ret (true, msg) -> msg = EmptyString) /\
  (forall msg, validate_action E action = Ret (false, msg) -> msg <> EmptyString).
Proof.
  split; [split|split].
  - unfold validation_passed.
    destruct (validate_action E action) as [[ok msg]|e] eqn:Hv; cbn [verdict];
      [|discriminate].
    intros ->. exact (validate_action_accepts E action msg Hv).
  - intros (d & t & -> & Hact & Hwf). unfold validation_passed.
    now rewrite (validate_action_well_formed E d t Hact Hwf).
  - intros msg Hv.
    destruct (validate_action_accepts E action msg Hv) as (d & t & -> & Hact & Hwf).
    rewrite (validate_action_well_formed E d t Hact Hwf) in Hv. congruence.
  - unfold validate_action. intros msg.
    destruct action as [| | | | | |d]; try (intros H; injection H as <-; discriminate).
    destruct (dict_get d "action") as [v|];
      [|intros H; injection H as <-; discriminate].
    destruct (py_in v valid_actions); cbn [negb].
    2:{ destruct (fstr E v); [|discriminate]. intros H. injection H as <-.
        discriminate. }
    destruct (py_eq_str v "tap").
    + destruct (dict_get d "coordinates") as [[| | | | |items|]|];
        try (intros H; injection H as <-; discriminate).
      destruct (negb (Nat.eqb (length items) 2));
        [intros H; injection H as <-; discriminate|].
      destruct (negb (forallb is_int_or_float items));
        [intros H; injection H as <-; discriminate|discriminate].
    + destruct (py_eq_str v "type"); [|discriminate].
      destruct (dict_get d "text") as [[| | | | | |]|];
        try (intros H; injection H as <-; discriminate).
      discriminate.
Qed.

(** X2.  [validate_action] refuses a value with message [msg] exactly in
    the eight situations of [rejected], with the message of that
    situation; and it raises exactly when the [action] is none of the six
    strings and rendering it for the message raises, with that
    exception. *)
Theorem validate_action_rejections (E : env) (action : pyval) :
  (forall msg, validate_action E action = Ret (false, msg) <-> rejected E action msg) /\
  (forall e,
     validate_action E action = Raise e <->
     exists d v,
       action = PDict d /\ dict_get d "action" = Some v /\
       (forall t, In t valid_actions -> v <> PStr t) /\ fstr E v = Raise e).
Proof.
  split; intros x; split.
  - unfold validate_action. intros H.
    destruct action as [| | | | | |d];
      try (injection H as <-; apply RejNotObject; discriminate).
    destruct (dict_get d "action") as [v|] eqn:Hact;
      [|injection H as <-; now apply RejNoAction].
    destruct (py_in v valid_actions) eqn:Hin; cbn [negb] in H.
    2:{ destruct (fstr E v) as [text|e] eqn:Htext; [|discriminate].
        injection H as <-. apply (RejUnknown E d v text Hact); [|exact Htext].
        now apply py_in_valid_actions_false. }
    destruct (py_in_valid_actions v Hin) as (t & -> & Ht).
    cbn [py_eq_str] in H. destruct (String.eqb_spec t "tap") as [Heq|Htap].
    + subst t. destruct (dict_get d "coordinates") as [c|] eqn:Hc;
        [|injection H as <-; now apply RejTapMissing].
      destruct c as [| | | | |items|];
        try (injection H as <-; apply (RejTapShape E d _ Hact Hc); discriminate).
      destruct items as [|x0 [|y [|z items]]]; cbn [length Nat.eqb negb] in H;
        try (injection H as <-; apply (RejTapShape E d _ Hact Hc); discriminate).
      cbn [forallb] in H. rewrite andb_true_r in H.
      destruct (is_int_or_float x0 && is_int_or_float y) eqn:Hnum;
        cbn [negb] in H; [discriminate|].
      injection H as <-. now apply (RejTapNumeric E d x0 y).
    + destruct (String.eqb_spec t "type") as [Heq|Htype]; [subst t|discriminate].
      destruct (dict_get d "text") as [v|] eqn:Htext;
        [|injection H as <-; now apply RejTypeMissing].
      destruct v; try discriminate;
        (injection H as <-; apply (RejTypeNotString E d _ Hact Htext); discriminate).
  - intros H. unfold validate_action.
    destruct H as [a Ha|d Hact|d v text Hact Hv Htext|d Hact Hc|d c Hact Hc Hshape
                  |d x0 y Hact Hc Hnum|d Hact Htext|d v Hact Htext Hv].
    + destruct a; try reflexivity. now destruct (Ha entries).
    + now rewrite Hact.
    + rewrite Hact. apply py_in_valid_actions_false in Hv. now rewrite Hv, Htext.
    + rewrite Hact, Hc. reflexivity.
    + rewrite Hact, Hc. cbn [py_in valid_actions existsb py_eq_str String.eqb
                             Ascii.eqb Bool.eqb orb negb].
      destruct c as [| | | | |items|]; try reflexivity.
      destruct items as [|x0 [|y [|z items]]]; try reflexivity.
      now destruct (Hshape x0 y).
    + rewrite Hact, Hc. cbn [py_in valid_actions existsb py_eq_str String.eqb
                             Ascii.eqb Bool.eqb orb negb length Nat.eqb forallb].
      rewrite andb_true_r, Hnum. reflexivity.
    + rewrite Hact, Htext. reflexivity.
    + rewrite Hact, Htext. cbn [py_in valid_actions existsb py_eq_str String.eqb
                                Ascii.eqb Bool.eqb orb negb].
      destruct v; try reflexivity. now destruct (Hv s).
  - unfold validate_action. intros H.
    destruct action as [| | | | | |d]; try discriminate.
    destruct (dict_get d "action") as [v|] eqn:Hact; [|discriminate].
    destruct (py_in v valid_actions) eqn:Hin; cbn [negb] in H.
    + destruct (py_eq_str v "tap").
      * destruct (dict_get d "coordinates") as [[| | | | |items|]|]; try discriminate.
        destruct (negb (Nat.eqb (length items) 2)); [discriminate|].
        destruct (negb (forallb is_int_or_float items)); discriminate.
      * destruct (py_eq_str v "type"); [|discriminate].
        destruct (dict_get d "text") as [[| | | | | |]|]; discriminate.
    + destruct (fstr E v) as [text|e] eqn:Htext; [discriminate|].
      injection H as ->. exists d, v. split; [reflexivity|].
      split; [exact Hact|]. split; [|exact Htext].
      now apply py_in_valid_actions_false.
  - intros (d & v & -> & Hact & Hv & Hraise). unfold validate_action.
    rewrite Hact. apply py_in_valid_actions_false in Hv.
    now rewrite Hv, Hraise.
Qed.

(** ** The shape of a run *)

Ltac shape_case :=
  first
    [ eexists _, _, [], _, _; split; [reflexivity|];
      split; [cbn [trace app]; reflexivity|]
    | eexists _, _, [_], _, _; split; [reflexivity|];
      split; [cbn [trace app]; rewrite <- ?app_assoc; reflexivity|] ];
  split; [reflexivity|];
  split;
    [ unfold body_fits; cbn [String.eqb Ascii.eqb Bool.eqb];
      first [ reflexivity | left; reflexivity | right; eexists; reflexivity ]
    | first [ left; split; [eexists; reflexivity|reflexivity]
            | right; split; eexists; reflexivity ] ].

(** The guarded dispatch of a well-formed action in closed form: the
    events its type allows, then one call of the logger under that type,
    whose status is SUCCESS for a success result and an ERROR text for an
    error result. *)
Lemma guarded_dispatch_shape (E : env) (d : list (string * pyval)) (t : string)
    (st : state) :
  well_formed d t ->
  exists r st' body details status,
    try_except (dispatch E (PDict d) (PStr t)) (dispatch_failed E (PStr t)) st
      = (Ret (Some r), st') /\
    trace st' = (trace st ++ body ++ [EvLog t details status])%list /\
    log_file st' = (log_file st ++ logged E (log_line E t details status))%list /\
    body_fits t body /\
    (((exists m, r = success_result t m) /\ status = "SUCCESS") \/
     ((exists m, r = error_result m) /\ exists detail, status = "ERROR: " ++ detail)).
Proof.
  intros Hwf.
  destruct Hwf as [x y Hc Hx Hy|s Hs| | | |]; exec; shape_case.
Qed.

(** [execute_action] always ends in one of the cases of [run_case]. *)
Lemma execute_action_cases (E : env) (action : pyval) (st : state) :
  run_case E action st (execute_action E action st).
Proof.
  destruct (validate_action E action) as [[[|] msg]|e0] eqn:Hv.
  - destruct (validate_action_accepts E action msg Hv) as (d & t & -> & Hact & Hwf).
    assert (Hvp : validation_passed E (PDict d))
      by (unfold validation_passed; now rewrite Hv).
    assert (Hdev : device_action (PDict d) = negb (py_in (PStr t) ["done"; "wait"]))
      by (unfold device_action, getitem; now rewrite Hact).
    rewrite (execute_action_gate E d t st Hact Hwf). cbv zeta.
    destruct (py_in (PStr t) ["done"; "wait"]) eqn:Hin.
    + destruct (guarded_dispatch_shape E d t st Hwf)
        as (r & st' & body & det & status & Hrun & Htr & Hlog & Hbody & Hres).
      rewrite Hrun.
      apply (RunDispatched E (PDict d) st d t r st' body det status); auto.
      * split; [exact Hvp|]. rewrite Hdev. discriminate.
      * unfold after_gate. now rewrite Hin.
    + destruct (check_device_connected (adb_helper E)) as [[|]|e] eqn:Hc.
      * destruct (guarded_dispatch_shape E d t
                    (mk_state (trace st ++ [EvCheckConnected]) (log_file st)) Hwf)
          as (r & st' & body & det & status & Hrun & Htr & Hlog & Hbody & Hres).
        rewrite Hrun.
        apply (RunDispatched E (PDict d) st d t r st' body det status); auto.
        -- split; [exact Hvp|]. intros _. exact Hc.
        -- unfold after_gate. now rewrite Hin.
      * apply RunNoDevice; [exact Hvp|exact Hdev|exact Hc].
      * apply RunCheckRaised; [exact Hvp|exact Hdev|exact Hc].
  - unfold execute_action. rewrite Hv. now apply RunRejected.
  - unfold execute_action. rewrite Hv. now apply RunValidatorRaised.
Qed.




(** X4.  [execute_action] only ever appends to the log file: the lines
    already there stay, and at most one line is added, which is the line
    formatted from the logger call that ends the run; it is added only when
    the path reached dispatch and both the directory creation and the
    append went through. *)
Theorem log_file_append_only (E : env) (action : pyval) (st : state) :
  exists l,
    log_file (snd (execute_action E action st)) = (log_file st ++ l)%list /\
    (l = [] \/
     exists t details status evs,
       l = [log_line E t details status] /\
       trace (snd (execute_action E action st))
         = (trace st ++ evs ++ [EvLog t details status])%list /\
       reaches_dispatch E action /\
       os_makedirs E = Ret tt /\
       file_append E (log_line E t details status) = Ret tt).
Proof.
  pose proof (execute_action_cases E action st) as H.
  destruct (execute_action E action st) as [o st']. cbn [snd].
  inversion H as [e Hv|msg Hv|Hv Hdev Hc|e Hv Hdev Hc
                 |d t r st1 body det status Ha Hact Hreach Htr Hlog Hbody Hres]; subst.
  - exists []. split; [now rewrite app_nil_r|now left].
  - exists []. split; [now rewrite app_nil_r|now left].
  - exists []. split; [cbn [push log_file]; now rewrite app_nil_r|now left].
  - exists []. split; [cbn [push log_file]; now rewrite app_nil_r|now left].
  - exists (logged E (log_line E t det status)). split; [exact Hlog|].
    unfold logged.
    destruct (os_makedirs E) as [[]|e1] eqn:Hmk; [|now left].
    destruct (file_append E (log_line E t det status)) as [[]|e2] eqn:Hap;
      [|now left].
    right. exists t, det, status.
    unfold after_gate, push in *.
    destruct (py_in (PStr t) ["done"; "wait"]); cbn [trace] in *.
    + exists body. split; [reflexivity|]. split; [exact Htr|].
      split; [exact Hreach|]. split; [reflexivity|exact Hap].
    + exists (EvCheckConnected :: body). rewrite Htr, <- !app_assoc.
      split; [reflexivity|]. split; [reflexivity|].
      split; [exact Hreach|]. split; [reflexivity|exact Hap].
Qed.

(** X5.  What [execute_action] hands back, in every environment: an error
    result, which has the keys [status] and [message] only, or a success
    result whose [action] is the type the input asked for; it never returns
    [None].  An exception leaves it in two cases only: the validator
    raised it, rendering an unknown action type for its message, or the
    connectivity check raised it on a validated device action. *)
Theorem execute_action_result_schema (E : env) (action : pyval) (st : state) :
  match fst (execute_action E action st) with
  | Ret (Some r) =>
      (exists m, r = [("status", "error"); ("message", m)]) \/
      (exists t m,
         getitem action "action" = Ret (PStr t) /\
         r = [("status", "success"); ("action", t); ("message", m)])
  | Ret None => False
  | Raise e =>
      validate_action E action = Raise e \/
      (check_device_connected (adb_helper E) = Raise e /\
       device_action action = true /\ validation_passed E action)
  end.
Proof.
  pose proof (execute_action_cases E action st) as H.
  destruct (execute_action E action st) as [o st']. cbn [fst].
  inversion H as [e Hv|msg Hv|Hv Hdev Hc|e Hv Hdev Hc
                 |d t r st1 body det status Ha Hact Hreach Htr Hlog Hbody Hres]; subst.
  - now left.
  - left. now exists msg.
  - left. now eexists.
  - right. auto.
  - destruct Hres as [[[m ->] _]|[[m ->] _]].
    + right. exists t, m. cbn [getitem]. now rewrite Hact.
    + left. now exists m.
Qed.

(** An unknown action type that can be rendered is named in the message. *)
Example unknown_action_rendered :
  execute_action (sample_env adb_connected) (PDict [("action", PInt 7)]) st0 =
    (Ret (Some [("status", "error");
                ("message",
                 "Invalid action type '7'. Must be one of: "
                 ++ "['tap', 'type', 'home', 'back', 'wait', 'done']")]), st0).
Proof. reflexivity. Qed.

(** X6.  On a path that reaches dispatch the run ends with a call of the
    logger under the action's own type, and what is logged agrees with
    what is returned: the status logged is SUCCESS exactly when the result
    has status [success], and otherwise it is an ERROR text and the result
    has status [error]. *)
Theorem log_agrees_with_result (E : env) (action : pyval) (st : state) :
  reaches_dispatch E action ->
  exists r st' evs t details status,
    execute_action E action st = (Ret (Some r), st') /\
    getitem action "action" = Ret (PStr t) /\
    trace st' = (trace st ++ evs ++ [EvLog t details status])%list /\
    (status = "SUCCESS" <-> dict_get r "status" = Some "success") /\
    (status <> "SUCCESS" ->
     dict_get r "status" = Some "error" /\
     exists detail, status = "ERROR: " ++ detail).
Proof.
  intros Hreach.
  pose proof (execute_action_cases E action st) as H.
  destruct (execute_action E action st) as [o st'].
  inversion H as [e Hv|msg Hv|Hv Hdev Hc|e Hv Hdev Hc
                 |d t r st1 body det status Ha Hact _ Htr Hlog Hbody Hres]; subst.
  - destruct Hreach as [Hvp _]. unfold validation_passed in Hvp.
    rewrite Hv in Hvp. discriminate.
  - destruct Hreach as [Hvp _]. unfold validation_passed in Hvp.
    rewrite Hv in Hvp. discriminate.
  - destruct Hreach as [_ Hconn]. specialize (Hconn Hdev).
    unfold connectivity_passed in Hconn. congruence.
  - destruct Hreach as [_ Hconn]. specialize (Hconn Hdev).
    unfold connectivity_passed in Hconn. congruence.
  - assert (Hev : exists evs,
              trace st' = (trace st ++ evs ++ [EvLog t det status])%list).
    { rewrite Htr. unfold after_gate, push.
      destruct (py_in (PStr t) ["done"; "wait"]); cbn [trace].
      - now exists body.
      - exists (EvCheckConnected :: body). now rewrite <- !app_assoc. }
    destruct Hev as [evs Hev].
    exists r, st', evs, t, det, status.
    split; [reflexivity|]. split; [cbn [getitem]; now rewrite Hact|].
    split; [exact Hev|].
    destruct Hres as [[[m ->] ->]|[[m ->] [detail ->]]]; cbn [dict_get success_result
      error_result String.eqb Ascii.eqb Bool.eqb].
    + split; [split; reflexivity|]. intros Hne. now destruct Hne.
    + split; [split; discriminate|]. intros _. split; [reflexivity|].
      now exists detail.
Qed.

Lemma log_agrees_with_result_witness :
  exists r st' evs t details status,
    execute_action (sample_env adb_disconnected) (plain_action "wait") st0
      = (Ret (Some r), st') /\
    getitem (plain_action "wait") "action" = Ret (PStr t) /\
    trace st' = (trace st0 ++ evs ++ [EvLog t details status])%list /\
    (status = "SUCCESS" <-> dict_get r "status" = Some "success") /\
    (status <> "SUCCESS" ->
     dict_get r "status" = Some "error" /\
     exists detail, status = "ERROR: " ++ detail).
Proof.
  apply (log_agrees_with_result (sample_env adb_disconnected) (plain_action "wait") st0).
  split; [reflexivity|]. intros H. discriminate H.
Defined.

(** X7.  Only the keys [action], [coordinates] and [text] count: two dicts
    that agree on them, whatever else they hold ([reason] or any other
    key) and in whatever order, get the same verdict and message from
    [validate_action] and the same outcome, events and log from
    [execute_action]. *)
Theorem other_fields_ignored (E : env) (d1 d2 : list (string * pyval)) (st : state) :
  same_fields d1 d2 ->
  validate_action E (PDict d1) = validate_action E (PDict d2) /\
  execute_action E (PDict d1) st = execute_action E (PDict d2) st.
Proof.
  intros Hsame.
  assert (Hv : validate_action E (PDict d1) = validate_action E (PDict d2)).
  { destruct Hsame as (Ha & Hc & Ht). unfold validate_action.
    now rewrite Ha, Hc, Ht. }
  split; [exact Hv|].
  destruct Hsame as (Ha & Hc & Ht).
  unfold execute_action, dispatch, getitem. now rewrite Hv, Ha, Hc, Ht.
Qed.

Lemma other_fields_ignored_witness :
  execute_action (sample_env adb_connected)
    (PDict [("reason", PStr "open the menu"); ("coordinates", PList [PInt 10; PInt 20]);
            ("action", PStr "tap"); ("text", PInt 7)]) st0 =
  execute_action (sample_env adb_connected)
    (PDict [("action", PStr "tap"); ("text", PInt 7);
            ("coordinates", PList [PInt 10; PInt 20])]) st0.
Proof.
  apply (other_fields_ignored (sample_env adb_connected)).
  repeat split.
Defined.

(** ** The branches of the dispatcher *)

(** The run of a key-event action with a device attached and a command
    that returns. *)
Lemma keyevent_run (E : env) (d : list (string * pyval)) (st : state)
    (name keycode failed pressed out err : string) (code : Z) :
  dict_get d "action" = Some (PStr name) ->
  well_formed d name ->
  py_in (PStr name) ["done"; "wait"] = false ->
  dispatch E (PDict d) (PStr name) = keyevent E name keycode failed pressed ->
  check_device_connected (adb_helper E) = Ret true ->
  run_adb (adb_helper E) ["shell"; "input"; "keyevent"; keycode] = Ret (out, err, code) ->
  let status := if code =? 0 then "SUCCESS" else "ERROR: " ++ err in
  execute_action E (PDict d) st =
    (Ret (Some (if code =? 0 then success_result name pressed
                else error_result (failed ++ err))),
     mk_state (trace st ++ [EvCheckConnected;
                            EvRunAdb ["shell"; "input"; "keyevent"; keycode];
                            EvLog name EmptyString status])
              (log_file st ++ logged E (log_line E name EmptyString status))).
Proof.
  intros Hact Hwf Hin Hd Hc Hrun. cbv zeta.
  rewrite (execute_action_gate E d name st Hact Hwf). cbv zeta.
  rewrite Hin, Hc. unfold try_except. rewrite Hd.
  unfold keyevent, call_run_adb, bind, lift, ret, emit. cbn [trace log_file].
  rewrite Hrun.
  destruct (code =? 0); cbn [negb]; rewrite log_action_run; cbn [trace log_file];
    rewrite <- !app_assoc; reflexivity.
Qed.

(** X8.  With a device attached, [home] runs the one command
    [input keyevent KEYCODE_HOME] and [back] the one command
    [input keyevent KEYCODE_BACK]; when the command returns, exit code 0
    gives the success result "Pressed Home button" or "Pressed Back
    button", and any other code the error "Home failed: " or "Back
    failed: " followed by the command's stderr; the logger is called once,
    with empty details. *)
Theorem key_events (E : env) (d : list (string * pyval)) (st : state)
    (out err : string) (code : Z) :
  check_device_connected (adb_helper E) = Ret true ->
  let status := if code =? 0 then "SUCCESS" else "ERROR: " ++ err in
  (dict_get d "action" = Some (PStr "home") ->
   run_adb (adb_helper E) ["shell"; "input"; "keyevent"; "KEYCODE_HOME"]
     = Ret (out, err, code) ->
   execute_action E (PDict d) st =
     (Ret (Some (if code =? 0
                 then [("status", "success"); ("action", "home");
                       ("message", "Pressed Home button")]
                 else [("status", "error"); ("message", "Home failed: " ++ err)])),
      mk_state (trace st ++ [EvCheckConnected;
                             EvRunAdb ["shell"; "input"; "keyevent"; "KEYCODE_HOME"];
                             EvLog "home" EmptyString status])
               (log_file st ++ logged E (log_line E "home" EmptyString status)))) /\
  (dict_get d "action" = Some (PStr "back") ->
   run_adb (adb_helper E) ["shell"; "input"; "keyevent"; "KEYCODE_BACK"]
     = Ret (out, err, code) ->
   execute_action E (PDict d) st =
     (Ret (Some (if code =? 0
                 then [("status", "success"); ("action", "back");
                       ("message", "Pressed Back button")]
                 else [("status", "error"); ("message", "Back failed: " ++ err)])),
      mk_state (trace st ++ [EvCheckConnected;
                             EvRunAdb ["shell"; "input"; "keyevent"; "KEYCODE_BACK"];
                             EvLog "back" EmptyString status])
               (log_file st ++ logged E (log_line E "back" EmptyString status)))).
Proof.
  intros Hc status. split; intros Hact Hrun.
  - exact (keyevent_run E d st "home" "KEYCODE_HOME" "Home failed: "
             "Pressed Home button" out err code Hact (WfHome d) eq_refl eq_refl Hc Hrun).
  - exact (keyevent_run E d st "back" "KEYCODE_BACK" "Back failed: "
             "Pressed Back button" out err code Hact (WfBack d) eq_refl eq_refl Hc Hrun).
Qed.

Lemma key_events_witness :
  execute_action
    (sample_env {| check_device_connected := Ret true;
                   run_adb := fun _ => Ret (EmptyString, "error: closed", 255) |})
    (plain_action "back") st0 =
  (Ret (Some [("status", "error"); ("message", "Back failed: error: closed")]),
   mk_state [EvCheckConnected;
             EvRunAdb ["shell"; "input"; "keyevent"; "KEYCODE_BACK"];
             EvLog "back" EmptyString "ERROR: error: closed"]
     ["[2024-05-01 10:30:00] ACTION: back() -> ERROR: error: closed" ++ newline]).
Proof.
  exact (proj2 (key_events
                  (sample_env {| check_device_connected := Ret true;
                                 run_adb := fun _ => Ret (EmptyString, "error: closed", 255) |})
                  [("action", PStr "back")] st0 EmptyString "error: closed" 255 eq_refl)
           eq_refl eq_refl).
Defined.

(** The bound of [str_int] is ten to the power 4300, so [str_int] returns
    the decimal numeral exactly on the integers of at most 4300 digits. *)
Lemma int_str_bound_spec : int_str_bound = 10 ^ 4300.
Proof. vm_compute. reflexivity. Qed.

Lemma str_int_spec (n : Z) :
  (Z.abs n < 10 ^ 4300 ->
   str_int n = Ret (NilZero.string_of_int (Z.to_int n))) /\
  (10 ^ 4300 <= Z.abs n -> str_int n = Raise int_str_limit_exceeded).
Proof.
  unfold str_int. rewrite int_str_bound_spec.
  generalize (10 ^ 4300). intros bound.
  destruct (Z.ltb_spec (Z.abs n) bound); split; intros; try reflexivity; lia.
Qed.

(** X9.  A tap whose coordinates convert to the integers [a] and [b] with
    the decimal numerals [sa] and [sb] (integers of at most 4300 digits),
    with a device attached, runs the one command [input tap sa sb]; when
    the command returns, exit code 0 gives the success result
    "Tapped at (sa, sb)" and any other code the error "Tap failed: "
    followed by stderr, and the logger is called once with details
    "sa,sb". *)
Theorem tap_run (E : env) (d : list (string * pyval)) (st : state)
    (x y : pyval) (a b : Z) (sa sb out err : string) (code : Z) :
  dict_get d "action" = Some (PStr "tap") ->
  dict_get d "coordinates" = Some (PList [x; y]) ->
  py_int x = Ret a -> py_int y = Ret b ->
  str_int a = Ret sa -> str_int b = Ret sb ->
  is_int_or_float x = true -> is_int_or_float y = true ->
  check_device_connected (adb_helper E) = Ret true ->
  run_adb (adb_helper E) ["shell"; "input"; "tap"; sa; sb] = Ret (out, err, code) ->
  let status := if code =? 0 then "SUCCESS" else "ERROR: " ++ err in
  execute_action E (PDict d) st =
    (Ret (Some (if code =? 0
                then [("status", "success"); ("action", "tap");
                      ("message", "Tapped at (" ++ sa ++ ", " ++ sb ++ ")")]
                else [("status", "error"); ("message", "Tap failed: " ++ err)])),
     mk_state (trace st ++ [EvCheckConnected;
                            EvRunAdb ["shell"; "input"; "tap"; sa; sb];
                            EvLog "tap" (sa ++ "," ++ sb) status])
              (log_file st ++ logged E (log_line E "tap" (sa ++ "," ++ sb) status))).
Proof.
  intros Hact Hcoords Hx Hy Hsa Hsb Hnx Hny Hc Hrun. cbv zeta.
  rewrite (execute_action_gate E d "tap" st Hact (WfTap d x y Hcoords Hnx Hny)).
  cbv zeta. cbn [py_in existsb py_eq_str String.eqb Ascii.eqb Bool.eqb orb].
  rewrite Hc. exec; rewrite <- !app_assoc; reflexivity.
Qed.

Lemma tap_run_witness :
  execute_action (sample_env adb_connected)
    (tap_action (PInt 540) (PFloat (S754_finite false 2401 (-1)))) st0 =
  (Ret (Some [("status", "success"); ("action", "tap");
              ("message", "Tapped at (540, 1200)")]),
   mk_state [EvCheckConnected;
             EvRunAdb ["shell"; "input"; "tap"; "540"; "1200"];
             EvLog "tap" "540,1200" "SUCCESS"]
     ["[2024-05-01 10:30:00] ACTION: tap(540,1200) -> SUCCESS" ++ newline]).
Proof.
  exact (tap_run (sample_env adb_connected)
           [("action", PStr "tap");
            ("coordinates", PList [PInt 540; PFloat (S754_finite false 2401 (-1))])]
           st0 (PInt 540) (PFloat (S754_finite false 2401 (-1))) 540 1200
           "540" "1200" EmptyString EmptyString 0
           eq_refl eq_refl eq_refl eq_refl eq_refl eq_refl eq_refl eq_refl
           eq_refl eq_refl).
Defined.

(** X19.  A tap with a coordinate that converts to an integer of more than
    4300 digits passes validation, but with a device attached no command
    is run: rendering the integer fails inside the [try] block, the
    logger is called once with empty details, and the result is the
    "Execution error" with the text of the digit limit. *)
Theorem tap_digit_limit (E : env) (d : list (string * pyval)) (st : state)
    (x y : pyval) (a b : Z) :
  dict_get d "action" = Some (PStr "tap") ->
  dict_get d "coordinates" = Some (PList [x; y]) ->
  py_int x = Ret a -> py_int y = Ret b ->
  is_int_or_float x = true -> is_int_or_float y = true ->
  check_device_connected (adb_helper E) = Ret true ->
  10 ^ 4300 <= Z.abs a \/ 10 ^ 4300 <= Z.abs b ->
  let text := exc_text int_str_limit_exceeded in
  validate_action E (PDict d) = Ret (true, EmptyString) /\
  execute_action E (PDict d) st =
    (Ret (Some [("status", "error"); ("message", "Execution error: " ++ text)]),
     mk_state (trace st ++ [EvCheckConnected;
                            EvLog "tap" EmptyString ("ERROR: " ++ text)])
              (log_file st
                 ++ logged E (log_line E "tap" EmptyString ("ERROR: " ++ text)))).
Proof.
  intros Hact Hcoords Hx Hy Hnx Hny Hc Hbig. cbv zeta.
  pose proof (WfTap d x y Hcoords Hnx Hny) as Hwf.
  split; [exact (validate_action_well_formed E d "tap" Hact Hwf)|].
  rewrite (execute_action_gate E d "tap" st Hact Hwf).
  cbv zeta. cbn [py_in existsb py_eq_str String.eqb Ascii.eqb Bool.eqb orb].
  rewrite Hc.
  destruct (Z.ltb_spec (Z.abs a) (10 ^ 4300)) as [Hsmall|Hlarge].
  - destruct Hbig as [Hbig|Hbig];
      [exfalso; exact (Z.lt_irrefl _ (Z.lt_le_trans _ _ _ Hsmall Hbig))|].
    pose proof (proj1 (str_int_spec a) Hsmall) as Hsa.
    pose proof (proj2 (str_int_spec b) Hbig) as Hsb.
    exec. rewrite <- !app_assoc. reflexivity.
  - pose proof (proj2 (str_int_spec a) Hlarge) as Hsa.
    exec. rewrite <- !app_assoc. reflexivity.
Qed.

Lemma tap_digit_limit_witness :
  fst (execute_action (sample_env adb_connected)
         (tap_action (PInt 7) (PInt (- int_str_bound))) st0) =
  Ret (Some [("status", "error");
             ("message", "Execution error: " ++ exc_text int_str_limit_exceeded)]).
Proof.
  refine (f_equal fst (proj2 (tap_digit_limit (sample_env adb_connected)
            [("action", PStr "tap");
             ("coordinates", PList [PInt 7; PInt (- int_str_bound)])]
            st0 (PInt 7) (PInt (- int_str_bound)) 7 (- int_str_bound)
            eq_refl eq_refl eq_refl eq_refl eq_refl eq_refl eq_refl _))).
  right. rewrite <- int_str_bound_spec. vm_compute. discriminate.
Defined.

(** [int] fails on a number exactly when it is a float that is not finite. *)
Lemma py_int_numeric (v : pyval) :
  is_int_or_float v = true ->
  (non_finite v = false -> exists a, py_int v = Ret a) /\
  (non_finite v = true ->
   exists e, py_int v = Raise e /\ exc_text e = conversion_error v).
Proof.
  intros Hnum. destruct v as [|b|z|f| | |]; try discriminate Hnum.
  - split; [intros _; now eexists|discriminate].
  - split; [intros _; now eexists|discriminate].
  - destruct f as [s|s| |s m e]; (split; [intros H|intros H]);
      try discriminate H; try (now eexists); eexists; split; reflexivity.
Qed.

(** X10.  A tap passes validation even when a coordinate is the float NaN
    or an infinity, but then no command is run: with a device attached the
    conversion to an integer fails inside the [try] block, the logger is
    called once with empty details, and the result is the "Execution
    error" carrying the text of the conversion error of the first such
    coordinate.  Every other pair of numbers converts. *)
Theorem tap_non_finite (E : env) (d : list (string * pyval)) (st : state) (x y : pyval) :
  dict_get d "action" = Some (PStr "tap") ->
  dict_get d "coordinates" = Some (PList [x; y]) ->
  is_int_or_float x = true -> is_int_or_float y = true ->
  check_device_connected (adb_helper E) = Ret true ->
  validate_action E (PDict d) = Ret (true, EmptyString) /\
  (non_finite x || non_finite y = false ->
   exists a b, py_int x = Ret a /\ py_int y = Ret b) /\
  (non_finite x || non_finite y = true ->
   let text := conversion_error (if non_finite x then x else y) in
   execute_action E (PDict d) st =
     (Ret (Some [("status", "error"); ("message", "Execution error: " ++ text)]),
      mk_state (trace st ++ [EvCheckConnected;
                             EvLog "tap" EmptyString ("ERROR: " ++ text)])
               (log_file st
                  ++ logged E (log_line E "tap" EmptyString ("ERROR: " ++ text))))).
Proof.
  intros Hact Hcoords Hnx Hny Hc.
  pose proof (WfTap d x y Hcoords Hnx Hny) as Hwf.
  destruct (py_int_numeric x Hnx) as [Hxfin Hxinf].
  destruct (py_int_numeric y Hny) as [Hyfin Hyinf].
  split; [exact (validate_action_well_formed E d "tap" Hact Hwf)|]. split.
  - intros H. apply orb_false_iff in H as [Hx Hy].
    destruct (Hxfin Hx) as [a Ha]. destruct (Hyfin Hy) as [b Hb]. eauto.
  - intros H. cbv zeta.
    rewrite (execute_action_gate E d "tap" st Hact Hwf). cbv zeta.
    cbn [py_in existsb py_eq_str String.eqb Ascii.eqb Bool.eqb orb]. rewrite Hc.
    destruct (non_finite x) eqn:Hx.
    + destruct (Hxinf eq_refl) as (e & Hr & <-).
      exec. rewrite <- !app_assoc. reflexivity.
    + cbn [orb] in H. destruct (Hxfin eq_refl) as [a Ha].
      destruct (Hyinf H) as (e & Hr & <-).
      exec. rewrite <- !app_assoc. reflexivity.
Qed.

Lemma tap_non_finite_witness :
  execute_action (sample_env adb_connected)
    (tap_action (PInt 3) (PFloat (S754_infinity true))) st0 =
  (Ret (Some [("status", "error");
              ("message", "Execution error: cannot convert float infinity to integer")]),
   mk_state [EvCheckConnected;
             EvLog "tap" EmptyString "ERROR: cannot convert float infinity to integer"]
     ["[2024-05-01 10:30:00] ACTION: tap() -> ERROR: cannot convert float infinity to integer"
        ++ newline]).
Proof.
  exact (proj2 (proj2 (tap_non_finite (sample_env adb_connected)
           [("action", PStr "tap");
            ("coordinates", PList [PInt 3; PFloat (S754_infinity true)])]
           st0 (PInt 3) (PFloat (S754_infinity true))
           eq_refl eq_refl eq_refl eq_refl eq_refl)) eq_refl).
Defined.

(** X11.  On every dict whose [action] is [wait], in every environment,
    [execute_action] pauses for 2 seconds, calls the logger once with
    details "2s" and returns the success result "Waited 2 seconds"; the
    bridge is not called, so the outcome does not depend on a device. *)
Theorem wait_is_local (E : env) (d : list (string * pyval)) (st : state) :
  dict_get d "action" = Some (PStr "wait") ->
  execute_action E (PDict d) st =
    (Ret (Some [("status", "success"); ("action", "wait");
                ("message", "Waited 2 seconds")]),
     mk_state (trace st ++ [EvSleep 2; EvLog "wait" "2s" "SUCCESS"])
              (log_file st ++ logged E (log_line E "wait" "2s" "SUCCESS"))).
Proof.
  intros Hact.
  rewrite (execute_action_gate E d "wait" st Hact (WfWait d)). cbv zeta.
  cbn [py_in existsb py_eq_str String.eqb Ascii.eqb Bool.eqb orb].
  exec. rewrite <- !app_assoc. reflexivity.
Qed.

Lemma wait_is_local_witness :
  execute_action (sample_env adb_raising)
    (PDict [("action", PStr "wait"); ("reason", PStr "page is loading")]) st0 =
  (Ret (Some [("status", "success"); ("action", "wait");
              ("message", "Waited 2 seconds")]),
   mk_state [EvSleep 2; EvLog "wait" "2s" "SUCCESS"]
     ["[2024-05-01 10:30:00] ACTION: wait(2s) -> SUCCESS" ++ newline]).
Proof.
  exact (wait_is_local (sample_env adb_raising)
           [("action", PStr "wait"); ("reason", PStr "page is loading")] st0 eq_refl).
Defined.

(** ** The escaped text *)

Lemma str_replace_nonempty (a : ascii) (s : string) :
  str_replace (String a s) space "%s" <> EmptyString.
Proof. cbn [str_replace]. now destruct (Ascii.eqb a space). Qed.

(** X12.  On texts that hold no [%] the escaping loses nothing: two such
    texts with the same payload are the same text. *)
Theorem escape_injective (s1 s2 : string) :
  no_percent s1 -> no_percent s2 ->
  str_replace s1 space "%s" = str_replace s2 space "%s" ->
  s1 = s2.
Proof.
  revert s2. induction s1 as [|a r1 IH]; intros [|b r2] H1 H2 Heq.
  - reflexivity.
  - symmetry in Heq. now apply str_replace_nonempty in Heq.
  - now apply str_replace_nonempty in Heq.
  - assert (Ha : a <> percent) by (intros ->; apply H1; now left).
    assert (Hb : b <> percent) by (intros ->; apply H2; now left).
    assert (Hr1 : no_percent r1) by (intros Hin; apply H1; now right).
    assert (Hr2 : no_percent r2) by (intros Hin; apply H2; now right).
    cbn [str_replace] in Heq.
    destruct (Ascii.eqb_spec a space) as [->|Hna];
      destruct (Ascii.eqb_spec b space) as [->|Hnb].
    + injection Heq as Heq. f_equal. now apply IH.
    + injection Heq as Hb' _. now destruct Hb.
    + injection Heq as Ha' _. now destruct Ha.
    + injection Heq as -> Heq. f_equal. now apply IH.
Qed.

Lemma escape_injective_witness : "hi there" = "hi" ++ " " ++ "there".
Proof.
  apply (escape_injective "hi there" ("hi" ++ " " ++ "there"));
    [intros H; cbv in H; repeat (destruct H as [H|H]; [discriminate H|]); exact H..
    |reflexivity].
Defined.

Lemma str_replace_without_space (s : string) :
  ~ In space (list_ascii_of_string s) -> str_replace s space "%s" = s.
Proof.
  induction s as [|a s IH]; [reflexivity|]. intros H. cbn [str_replace].
  destruct (Ascii.eqb_spec a space) as [->|Hne].
  - exfalso. apply H. now left.
  - f_equal. apply IH. intros Hin. apply H. now right.
Qed.

(** X13.  Escaping an escaped text changes nothing, so a text and its own
    escaped form are sent to the device as the same payload: a text that
    already holds [%s] cannot be told from one that held a space.  The
    payload is longer than the text by one character for each space. *)
Theorem escape_idempotent (s : string) :
  encode_text (PStr (str_replace s space "%s")) = encode_text (PStr s) /\
  String.length (str_replace s space "%s")
    = (String.length s + count_spaces s)%nat.
Proof.
  split.
  - cbn [encode_text]. f_equal.
    apply str_replace_without_space, str_replace_no_space.
  - induction s as [|a s IH]; [reflexivity|].
    cbn [str_replace count_spaces String.length].
    destruct (Ascii.eqb a space); cbn [String.append String.length];
      rewrite IH; lia.
Qed.

(** ** The entry point, further *)

Ltac bool_to_arith :=
  repeat first [ rewrite andb_true_iff | rewrite orb_true_iff
               | rewrite Nat.eqb_eq | rewrite Nat.leb_le ].

Ltac bool_false := apply not_true_iff_false; bool_to_arith; lia.

(** The bytes of a two-byte or three-byte whitespace character are no
    one-byte whitespace, and no two of them make a two-byte one. *)
Lemma is_whitespace2_bytes (a b : ascii) :
  is_whitespace2 a b = true ->
  is_whitespace a = false /\ is_whitespace b = false.
Proof.
  unfold is_whitespace2, is_whitespace. cbv zeta.
  generalize (code a), (code b). intros na nb. bool_to_arith. intros H.
  split; bool_false.
Qed.

Lemma is_whitespace3_bytes (a b c : ascii) :
  is_whitespace3 a b c = true ->
  is_whitespace a = false /\ is_whitespace c = false /\
  is_whitespace2 a b = false /\ is_whitespace2 b c = false.
Proof.
  unfold is_whitespace3, is_whitespace2, is_whitespace. cbv zeta.
  generalize (code a), (code b), (code c). intros na nb nc. bool_to_arith.
  intros H. repeat split; bool_false.
Qed.

(** A byte that starts a whitespace character. *)
Definition starts_whitespace (x : ascii) : Prop :=
  (code x <= 32 \/ code x = 194 \/ code x = 225 \/ code x = 226 \/ code x = 227)%nat.

Lemma blank_bytes_start (x : ascii) (q : list ascii) :
  blank_bytes (x :: q) -> starts_whitespace x.
Proof.
  intros H. inversion H as [|a l Hw _|a b l Hw _|a b c l Hw _]; subst;
    revert Hw; unfold starts_whitespace, is_whitespace, is_whitespace2,
      is_whitespace3; cbv zeta.
  - generalize (code x). intros n. bool_to_arith. lia.
  - generalize (code x), (code b). intros n nb. bool_to_arith. lia.
  - generalize (code x), (code b), (code c). intros n nb nc. bool_to_arith. lia.
Qed.

(** Such a byte completes no whitespace character begun before it. *)
Lemma starts_whitespace_no_tail (x : ascii) :
  starts_whitespace x ->
  forall a b,
    is_whitespace2 a x = false /\ is_whitespace3 a b x = false /\
    is_whitespace3 a x b = false.
Proof.
  unfold starts_whitespace, is_whitespace2, is_whitespace3.
  intros H a b. revert H. generalize (code x), (code a), (code b).
  intros n na nb H. repeat split; bool_false.
Qed.

(** Whitespace in front is dropped whole ... *)
Lemma lstrip_blank_app (p l : list ascii) :
  blank_bytes p -> lstrip (p ++ l) = lstrip l.
Proof.
  unfold lstrip. induction 1 as [|a p Hw _ IH|a b p Hw _ IH|a b c p Hw _ IH];
    cbn [app strip_with].
  - reflexivity.
  - now rewrite Hw.
  - destruct (is_whitespace2_bytes a b Hw) as [Ha _]. now rewrite Ha, Hw.
  - destruct (is_whitespace3_bytes a b c Hw) as (Ha & _ & Hab & _).
    now rewrite Ha, Hab, Hw.
Qed.

(** ... and so is whitespace at the end, met in reverse. *)
Lemma lstrip_rev_blank_app (p l : list ascii) :
  blank_bytes p -> lstrip_rev (rev p ++ l) = lstrip_rev l.
Proof.
  unfold lstrip_rev. intros H. revert l.
  induction H as [|a p Hw _ IH|a b p Hw _ IH|a b c p Hw _ IH]; intros l;
    cbn [rev]; rewrite <- ?app_assoc; cbn [app]; rewrite ?IH; cbn [strip_with].
  - reflexivity.
  - now rewrite Hw.
  - destruct (is_whitespace2_bytes a b Hw) as [_ Hb]. now rewrite Hb, Hw.
  - destruct (is_whitespace3_bytes a b c Hw) as (_ & Hc & _ & Hbc).
    now rewrite Hc, Hbc, Hw.
Qed.

(** A text that [lstrip] empties is whitespace only. *)
Lemma lstrip_nil_blank (l : list ascii) : lstrip l = [] -> blank_bytes l.
Proof.
  unfold lstrip.
  induction l as [l IH] using (induction_ltof1 _ (@length ascii)).
  unfold ltof in IH.
  destruct l as [|a [|b [|c r]]]; cbn [strip_with].
  - constructor.
  - destruct (is_whitespace a) eqn:Ha; [|discriminate].
    intros _. apply Blank1; [exact Ha|constructor].
  - destruct (is_whitespace a) eqn:Ha.
    + intros H. apply Blank1; [exact Ha|]. apply IH; [cbn; lia|exact H].
    + destruct (is_whitespace2 a b) eqn:Hab; [|discriminate].
      intros _. apply Blank2; [exact Hab|constructor].
  - destruct (is_whitespace a) eqn:Ha.
    + intros H. apply Blank1; [exact Ha|]. apply IH; [cbn; lia|exact H].
    + destruct (is_whitespace2 a b) eqn:Hab.
      * intros H. apply Blank2; [exact Hab|]. apply IH; [cbn; lia|exact H].
      * destruct (is_whitespace3 a b c) eqn:Habc; [|discriminate].
        intros H. apply Blank3; [exact Habc|]. apply IH; [cbn; lia|exact H].
Qed.

(** What [lstrip] keeps is not touched by whitespace put behind it. *)
Lemma lstrip_app_blank (l q : list ascii) :
  blank_bytes q -> lstrip l <> [] -> lstrip (l ++ q) = (lstrip l ++ q)%list.
Proof.
  intros Hq. destruct q as [|x q]; [intros _; now rewrite !app_nil_r|].
  pose proof (starts_whitespace_no_tail x (blank_bytes_start x q Hq)) as Hx.
  unfold lstrip.
  induction l as [l IH] using (induction_ltof1 _ (@length ascii)).
  unfold ltof in IH.
  destruct l as [|a [|b [|c r]]]; cbn [strip_with app].
  - intros H. now destruct H.
  - destruct (is_whitespace a) eqn:Ha; [intros H; now destruct H|].
    intros _. destruct (Hx a x) as (Hax & _ & _). rewrite Hax.
    destruct q as [|y q]; [reflexivity|].
    destruct (Hx a y) as (_ & _ & Haxy). now rewrite Haxy.
  - destruct (is_whitespace a) eqn:Ha.
    + intros H. apply (IH [b]); [cbn; lia|exact H].
    + destruct (is_whitespace2 a b) eqn:Hab; [intros H; now destruct H|].
      intros _. destruct (Hx a b) as (_ & Habx & _). now rewrite Habx.
  - destruct (is_whitespace a) eqn:Ha.
    + intros H. apply (IH (b :: c :: r)); [cbn; lia|exact H].
    + destruct (is_whitespace2 a b) eqn:Hab.
      * intros H. apply (IH (c :: r)); [cbn; lia|exact H].
      * destruct (is_whitespace3 a b c) eqn:Habc.
        -- intros H. apply (IH r); [cbn; lia|exact H].
        -- reflexivity.
Qed.

Lemma list_ascii_of_string_app (s1 s2 : string) :
  list_ascii_of_string (s1 ++ s2)
    = (list_ascii_of_string s1 ++ list_ascii_of_string s2)%list.
Proof.
  induction s1 as [|a s1 IH]; [reflexivity|].
  cbn [String.append list_ascii_of_string app]. now rewrite IH.
Qed.

(** Whitespace around a text does not survive [strip], and does not change
    what [strip] keeps. *)
Lemma str_strip_padding (p s q : string) :
  blank p -> blank q -> str_strip (p ++ s ++ q) = str_strip s.
Proof.
  unfold blank, str_strip. intros Hp Hq. f_equal. f_equal.
  rewrite !list_ascii_of_string_app.
  rewrite (lstrip_blank_app _ _ Hp).
  set (l := list_ascii_of_string s). set (w := list_ascii_of_string q) in *.
  destruct (lstrip l) as [|a m] eqn:Hl.
  - rewrite (lstrip_blank_app l w (lstrip_nil_blank l Hl)).
    rewrite <- (app_nil_r w), (lstrip_blank_app w [] Hq). reflexivity.
  - rewrite (lstrip_app_blank l w Hq) by (rewrite Hl; discriminate). rewrite Hl.
    rewrite rev_app_distr. now apply lstrip_rev_blank_app.
Qed.

(** Neither the executor nor the parser looks at standard input. *)
Lemma execute_action_with_stdin (E : env) (text : string) :
  execute_action (with_stdin E text) = execute_action E.
Proof. reflexivity. Qed.

(** X14.  Whitespace before and after the JSON text on standard input,
    ASCII or not, is of no consequence: [main] ends with the same exit
    code, prints the same result and leaves the same events and log as on
    the text without it.  (The trailing newline a shell pipe adds is one
    such case.) *)
Theorem stdin_padding_ignored (E : env) (args_json : option string) (st : state)
    (p q : string) :
  blank p -> blank q ->
  main (with_stdin E (p ++ stdin_read E ++ q)) args_json st = main E args_json st.
Proof.
  intros Hp Hq. rewrite !main_run. cbv zeta.
  assert (Hin : action_input (with_stdin E (p ++ stdin_read E ++ q)) args_json
                = action_input E args_json).
  { unfold action_input. cbn [stdin_read with_stdin].
    now rewrite (str_strip_padding p (stdin_read E) q Hp Hq). }
  rewrite Hin, execute_action_with_stdin. reflexivity.
Qed.

Lemma stdin_padding_ignored_witness :
  main (with_stdin (sample_env adb_connected)
          (nbsp ++ done_json ++ em_space ++ newline))
       None st0 =
  (Ret 0,
   mk_state [EvReadStdin; EvJsonLoads done_json;
             EvLog "done" EmptyString "SUCCESS";
             EvPrint (Some [("status", "success"); ("action", "done");
                            ("message", "Goal achieved - task complete")])
                     (Some 2)]
     ["[2024-05-01 10:30:00] ACTION: done() -> SUCCESS" ++ newline]).
Proof.
  refine (eq_trans
            (stdin_padding_ignored (with_stdin (sample_env adb_connected) done_json)
               None st0 nbsp (em_space ++ newline) _ _)
            eq_refl).
  - apply Blank2; [reflexivity|constructor].
  - apply Blank3; [reflexivity|]. apply Blank1; [reflexivity|constructor].
Defined.

(** Standard input that holds whitespace only, here a no-break space, a
    newline and an em space, is no input. *)
Example blank_stdin_is_no_input :
  main (with_stdin (sample_env adb_connected) (nbsp ++ newline ++ em_space))
       None st0 =
  (Ret 1, mk_state [EvReadStdin; EvPrint (Some no_action) None] []).
Proof. reflexivity. Qed.

(** X15.  When the parsed value does not pass validation, [main] touches
    neither the device nor the log: after parsing it prints the error
    result carrying the validator's message, indented by 2, and exits with
    code 3. *)
Theorem main_validation_error (E : env) (args_json : option string) (st : state)
    (action : pyval) (msg : string) :
  str_is_empty (action_input E args_json) = false ->
  json_loads E (action_input E args_json) = Ret (inl action) ->
  validate_action E action = Ret (false, msg) ->
  main E args_json st =
    (Ret 3,
     mk_state (trace st ++ input_events args_json ++
               [EvJsonLoads (action_input E args_json);
                EvPrint (Some [("status", "error"); ("message", msg)]) (Some 2)])
              (log_file st)).
Proof.
  intros Hne Hparse Hv. rewrite main_run. cbv zeta. rewrite Hne, Hparse.
  unfold execute_action. rewrite Hv. unfold bind, lift, ret.
  cbn [negb result_getitem error_result dict_get String.eqb Ascii.eqb Bool.eqb
       exit_code_of].
  unfold after_input, input_events.
  destruct (flag_given args_json); unfold push; cbn [trace log_file];
    rewrite <- ?app_assoc; reflexivity.
Qed.

Lemma main_validation_error_witness :
  main (back_env adb_raising) (Some "[1]") st0 =
    (Ret 3,
     mk_state [EvJsonLoads "[1]";
               EvPrint (Some [("status", "error");
                              ("message", "Action must be a JSON object")]) (Some 2)]
              []).
Proof.
  exact (main_validation_error (back_env adb_raising) (Some "[1]") st0
           (PList [PInt 1]) "Action must be a JSON object" eq_refl eq_refl eq_refl).
Defined.

(** X16.  [main] has no handler of its own: when the connectivity check
    raises on a validated device action, the exception leaves [main] after
    the check, nothing has been printed or logged, and the process ends
    with status 1. *)
Theorem main_check_fault (E : env) (args_json : option string) (st : state)
    (action : pyval) (e : exc) :
  str_is_empty (action_input E args_json) = false ->
  json_loads E (action_input E args_json) = Ret (inl action) ->
  validation_passed E action ->
  device_action action = true ->
  check_device_connected (adb_helper E) = Raise e ->
  main E args_json st =
    (Raise e,
     mk_state (trace st ++ input_events args_json ++
               [EvJsonLoads (action_input E args_json); EvCheckConnected])
              (log_file st)) /\
  exit_status (fst (main E args_json st)) = 1.
Proof.
  intros Hne Hparse Hvp Hdev Hc.
  assert (Hrun : main E args_json st =
    (Raise e,
     mk_state (trace st ++ input_events args_json ++
               [EvJsonLoads (action_input E args_json); EvCheckConnected])
              (log_file st))).
  { rewrite main_run. cbv zeta. rewrite Hne, Hparse.
    pose proof (execute_action_cases E action
                  (push (after_input args_json st)
                        (EvJsonLoads (action_input E args_json)))) as H.
    destruct (execute_action E action _) as [o st'].
    unfold validation_passed in Hvp.
    inversion H as [e0 Hv|msg Hv|Hv Hd Hc'|e' Hv Hd Hc'
                   |d t r st1 body det status Ha Hact Hreach Htr Hlog Hbody Hres]; subst.
    - rewrite Hv in Hvp. discriminate.
    - rewrite Hv in Hvp. discriminate.
    - congruence.
    - assert (e' = e) by congruence. subst e'.
      unfold after_input, input_events.
      destruct (flag_given args_json); unfold push; cbn [trace log_file];
        rewrite <- ?app_assoc; reflexivity.
    - destruct Hreach as [_ Hconn]. specialize (Hconn Hdev).
      unfold connectivity_passed in Hconn. congruence. }
  split; [exact Hrun|]. now rewrite Hrun.
Qed.

Lemma main_check_fault_witness :
  main (back_env adb_raising) (Some back_json) st0 =
    (Raise adb_missing, mk_state [EvJsonLoads back_json; EvCheckConnected] []).
Proof.
  exact (proj1 (main_check_fault (back_env adb_raising) (Some back_json) st0
                  (plain_action "back") adb_missing
                  eq_refl eq_refl eq_refl eq_refl eq_refl)).
Defined.

(** ** Text of a type action *)

(** X18.  For a dict whose [action] is [type], validation succeeds exactly
    when [text] is present and is a string, the empty string included; a
    missing [text] is refused with the missing-field message and any other
    value, a number or [null] for instance, with "text must be a string". *)
Theorem type_text_validated (E : env) (d : list (string * pyval)) :
  dict_get d "action" = Some (PStr "type") ->
  (validation_passed E (PDict d) <-> exists s, dict_get d "text" = Some (PStr s)) /\
  (dict_get d "text" = Some (PStr EmptyString) ->
   validate_action E (PDict d) = Ret (true, EmptyString)) /\
  (dict_get d "text" = None ->
   validate_action E (PDict d) = Ret (false, "type action requires 'text' field")) /\
  (forall v, dict_get d "text" = Some v -> (forall s, v <> PStr s) ->
   validate_action E (PDict d) = Ret (false, "text must be a string")).
Proof.
  intros Hact. unfold validation_passed, validate_action. rewrite Hact.
  cbn [py_in valid_actions existsb py_eq_str String.eqb Ascii.eqb Bool.eqb orb negb].
  split; [|split; [|split]].
  - destruct (dict_get d "text") as [[| | | |s| |]|]; cbn [verdict];
      (split; [intros H; try discriminate H; eauto
              |intros [s' H]; try discriminate H; reflexivity]).
  - now intros ->.
  - now intros ->.
  - intros v -> Hv. destruct v; try reflexivity. now destruct (Hv s).
Qed.

Lemma type_text_validated_witness :
  validate_action (sample_env adb_connected) (type_action (PStr EmptyString))
    = Ret (true, EmptyString) /\
  validate_action (sample_env adb_connected) (type_action (PInt 42))
    = Ret (false, "text must be a string").
Proof.
  split.
  - exact (proj1 (proj2 (type_text_validated (sample_env adb_connected)
                           [("action", PStr "type"); ("text", PStr EmptyString)]
                           eq_refl)) eq_refl).
  - refine (proj2 (proj2 (proj2 (type_text_validated (sample_env adb_connected)
                                   [("action", PStr "type"); ("text", PInt 42)]
                                   eq_refl))) (PInt 42) eq_refl _).
    discriminate.
Defined.
